(** * Profile export pipeline of [services/patch.py]

    A shallow embedding of the pyroscope exporter that the demo installs
    into ddtrace's profiler: the multipart packager, the URL assembly, the
    status classification of one upload attempt, the retry driver as the
    exporter configures it, and the installer that swaps the profiler's
    exporter factory.

    Conventions.  A Python [bytes] value is a [list byte]; a Python [str] is
    a [string] holding the UTF-8 encoding of the text (all literals of the
    source are ASCII); a Python [int] is a [Z]; a [dict] whose iteration
    order is observable is an association list in insertion order, and the
    header dictionary handed to the HTTP client is a [gmap]. *)

From Stdlib Require Import ZArith QArith String Ascii Strings.Byte List Lia.
From stdpp Require Import base gmap strings list.

Open Scope Z_scope.

(** ** Python built-ins used by the exporter *)

Module Py.

(** [b"..."] literals. *)
Definition b (s : string) : list byte := list_byte_of_string s.

Definition CR : ascii := "013"%char.
Definition LF : ascii := "010"%char.
Definition DQUOTE : ascii := "034"%char.
Definition CRLF : string := String CR (String LF EmptyString).
Definition DQ : string := String DQUOTE EmptyString.

Definition digit (d : Z) : ascii := ascii_of_N (48 + Z.to_N d).

(** Decimal digits of a non-negative integer, most significant first;
    [fuel] bounds the number of divisions. *)
Fixpoint uint_digits (fuel : nat) (n : Z) (acc : string) : string :=
  let acc' := String (digit (n mod 10)) acc in
  match fuel with
  | O => acc'
  | S f => if n <? 10 then acc' else uint_digits f (n / 10) acc'
  end.

(** [str(n)] for an [int]. *)
Definition str_int (n : Z) : string :=
  if n <? 0
  then String "-" (uint_digits (Z.to_nat (Z.log2 (- n))) (- n) EmptyString)
  else uint_digits (Z.to_nat (Z.log2 n)) n EmptyString.

(** Reading a decimal numeral back, used to check [str_int]. *)
Definition digit_val (c : ascii) : option Z :=
  let n := Z.of_N (N_of_ascii c) in
  if (48 <=? n) && (n <=? 57) then Some (n - 48) else None.

Fixpoint uint_of_digits (acc : Z) (s : string) : option Z :=
  match s with
  | EmptyString => Some acc
  | String c s' =>
      match digit_val c with
      | Some d => uint_of_digits (10 * acc + d) s'
      | None => None
      end
  end.

Definition int_of_str (s : string) : option Z :=
  match s with
  | EmptyString => None
  | String c s' =>
      if Ascii.eqb c "-"
      then match s' with
           | EmptyString => None
           | _ => option_map Z.opp (uint_of_digits 0 s')
           end
      else uint_of_digits 0 s
  end.

(** [sep.join(parts)] on [str]. *)
Fixpoint join (sep : string) (parts : list string) : string :=
  match parts with
  | [] => EmptyString
  | [p] => p
  | p :: rest => p +:+ sep +:+ join sep rest
  end.

(** [s.replace(old, new)] for a one-character [old]. *)
Fixpoint replace_char (old : ascii) (new : string) (s : string) : string :=
  match s with
  | EmptyString => EmptyString
  | String c s' =>
      if Ascii.eqb c old
      then new +:+ replace_char old new s'
      else String c (replace_char old new s')
  end.

(** [c in s]. *)
Fixpoint char_in (c : ascii) (s : string) : bool :=
  match s with
  | EmptyString => false
  | String d s' => Ascii.eqb c d || char_in c s'
  end.

(** [fmt % args] on [bytes], for the conversions [%s] and [%%].  [None]
    stands for the [TypeError]/[ValueError] Python raises when the
    arguments and the directives do not match. *)
Fixpoint bytes_format (fmt : list byte) (args : list (list byte))
  : option (list byte) :=
  match fmt with
  | [] => match args with [] => Some [] | _ :: _ => None end
  | c :: rest =>
      if Byte.eqb c "%"%byte then
        match rest with
        | d :: rest' =>
            if Byte.eqb d "s"%byte then
              match args with
              | a :: args' => option_map (app a) (bytes_format rest' args')
              | [] => None
              end
            else if Byte.eqb d "%"%byte then
              option_map (cons d) (bytes_format rest' args)
            else None
        | [] => None
        end
      else option_map (cons c) (bytes_format rest args)
  end.

Definition hex_lower (n : N) : byte :=
  nth (N.to_nat n) (b "0123456789abcdef") "0"%byte.

Definition hex_upper (n : N) : ascii :=
  match String.get (N.to_nat n) "0123456789ABCDEF" with
  | Some c => c
  | None => "0"%char
  end.

(** [binascii.hexlify]: two lower-case hexadecimal digits per byte. *)
Fixpoint hexlify (bs : list byte) : list byte :=
  match bs with
  | [] => []
  | x :: rest =>
      let n := Byte.to_N x in
      hex_lower (n / 16) :: hex_lower (n mod 16) :: hexlify rest
  end.

Definition is_hex_lower (c : byte) : bool :=
  let n := Byte.to_N c in
  ((48 <=? n) && (n <=? 57))%N || ((97 <=? n) && (n <=? 102))%N.

(** Values that occur in the query dictionary: [str] and [int]. *)
Inductive value : Type :=
| Str (s : string)
| Int (n : Z).

(** [str(v)]. *)
Definition str (v : value) : string :=
  match v with
  | Str s => s
  | Int n => str_int n
  end.

(** The exception classes the exporter raises or lets through.
    [OSError] covers [IOError] (the same class in Python 3) and its
    subclasses: connection errors and socket timeouts.  [UploadFailed] is
    ddtrace's subclass of tenacity's [RetryError]; like it, it is built
    from the last attempt.  [OtherException] is any class outside these. *)
Inductive exn : Type :=
| HTTPException (msg : string)
| OSError (msg : string)
| TryAgain
| ExportError (msg : string)
| UploadFailed (last_attempt : future)
| OtherException (cls msg : string)
with future : Type :=
| FutureResult
| FutureException (e : exn).

(** What a call does: return a value or raise. *)
Inductive result (A : Type) : Type :=
| Return (a : A)
| Raise (e : exn).
Arguments Return {A} a.
Arguments Raise {A} e.

(** [isinstance(e, (http_client.HTTPException, OSError, IOError))]. *)
Definition is_transport_error (e : exn) : bool :=
  match e with
  | HTTPException _ | OSError _ => true
  | _ => false
  end.

End Py.

(** ** [urllib.parse]: quoting and [urlencode] *)

Module Urllib.
Import Py.

Definition ALWAYS_SAFE : string :=
  "ABCDEFGHIJKLMNOPQRSTUVWXYZabcdefghijklmnopqrstuvwxyz0123456789_.-~".

(** ['%{:02X}'.format(c)]. *)
Definition percent (c : ascii) : string :=
  let n := N_of_ascii c in
  String "%" (String (hex_upper (n / 16))
                (String (hex_upper (n mod 16)) EmptyString)).

Definition quoter (safe : string) (c : ascii) : string :=
  if char_in c (ALWAYS_SAFE +:+ safe) then String c EmptyString
  else percent c.

(** [quote(s, safe)]: every byte of the UTF-8 text is kept when it is
    safe and percent-encoded otherwise. *)
Fixpoint quote (safe : string) (s : string) : string :=
  match s with
  | EmptyString => EmptyString
  | String c s' => quoter safe c +:+ quote safe s'
  end.

(** [quote_plus(s)]: as [quote], with spaces turned into [+]. *)
Definition quote_plus (s : string) : string :=
  if char_in " " s
  then replace_char " " "+" (quote " " s)
  else quote EmptyString s.

(** [urlencode(query)] on a dictionary, in its iteration order. *)
Definition urlencode (query : list (string * value)) : string :=
  join "&"
    (List.map (fun kv => quote_plus (fst kv) +:+ "=" +:+ quote_plus (str (snd kv)))
       query).

End Urllib.

(** ** [json.dumps] on dictionaries of strings and booleans *)

Module Json.
Import Py.

#[warnings="-register-all"] Inductive value : Type :=
| JString (s : string)
| JBool (v : bool)
| JObject (members : list (string * value)).

Definition hex4 (n : N) : string :=
  String (ascii_of_byte (hex_lower (n / 4096)))
    (String (ascii_of_byte (hex_lower ((n / 256) mod 16)))
       (String (ascii_of_byte (hex_lower ((n / 16) mod 16)))
          (String (ascii_of_byte (hex_lower (n mod 16))) EmptyString))).

(** One character of a string under [ensure_ascii=True] (ASCII text). *)
Definition escape_char (c : ascii) : string :=
  let n := N_of_ascii c in
  if Ascii.eqb c DQUOTE then String "\" DQ
  else if Ascii.eqb c "\" then "\\"
  else if (n =? 10)%N then "\n"
  else if (n =? 13)%N then "\r"
  else if (n =? 9)%N then "\t"
  else if (n =? 8)%N then "\b"
  else if (n =? 12)%N then "\f"
  else if ((n <? 32) || (126 <? n))%N then "\u" +:+ hex4 n
  else String c EmptyString.

Fixpoint escape (s : string) : string :=
  match s with
  | EmptyString => EmptyString
  | String c s' => escape_char c +:+ escape s'
  end.

Definition encode_basestring_ascii (s : string) : string :=
  DQ +:+ escape s +:+ DQ.

(** [json.dumps(v)] with the default separators [", "] and [": "]. *)
Fixpoint dumps (v : value) : string :=
  match v with
  | JString s => encode_basestring_ascii s
  | JBool true => "true"
  | JBool false => "false"
  | JObject members =>
      "{" +:+ join ", "
                (List.map (fun kv => match kv with
                                     | (k, x) => encode_basestring_ascii k +:+ ": " +:+ dumps x
                                     end) members)
          +:+ "}"
  end.

(** The keys of a dictionary, in order. *)
Definition keys (v : value) : list string :=
  match v with
  | JObject members => List.map fst members
  | _ => []
  end.

End Json.

(** ** [tenacity.Retrying], as the exporter configures and calls it *)

Module Tenacity.
Import Py.

(** The options the exporter sets.  [stop] and [retry] are the callables
    consulted after an attempt; [retry_error_cls] builds the error raised
    when [stop] says so ([reraise] keeps its default, [False]). *)
Record Retrying : Type := {
  wait_multiplier : Q;
  stop : Q -> bool;
  retry_error_cls : future -> exn;
  retry : future -> bool;
}.

(** [stop_after_delay(max_delay)]:
    [retry_state.seconds_since_start >= max_delay]. *)
Definition stop_after_delay (max_delay : Z) : Q -> bool :=
  fun seconds_since_start => Qle_bool (inject_Z max_delay) seconds_since_start.

(** [retry_if_exception_type(types)]: false when the attempt returned. *)
Definition retry_if_exception_type (types : exn -> bool) : future -> bool :=
  fun outcome =>
    match outcome with
    | FutureException e => types e
    | FutureResult => false
    end.

Definition set_outcome {A} (r : result A) : future :=
  match r with
  | Return _ => FutureResult
  | Raise e => FutureException e
  end.

(** [outcome.failed and isinstance(outcome.exception(), TryAgain)]. *)
Definition is_explicit_retry (outcome : future) : bool :=
  match outcome with
  | FutureException TryAgain => true
  | _ => false
  end.

(** One attempt as the driver saw it: what the callable sent out, what
    its surroundings answered, the outcome the driver recorded for it
    ([set_result] or [set_exception]), and [seconds_since_start] at that
    moment. *)
Record attempt (Req Env : Type) : Type := {
  sent : Req;
  answer : Env;
  recorded : future;
  seconds_since_start : Q;
}.
Arguments sent {Req Env} _.
Arguments answer {Req Env} _.
Arguments recorded {Req Env} _.
Arguments seconds_since_start {Req Env} _.

(** A run of the driver: the attempts made, and how the call ended;
    [None] when the script of answers ran out while the driver was about
    to attempt again. *)
Record run (Req Env A : Type) : Type := {
  attempts : list (attempt Req Env);
  outcome : option (result A);
}.
Arguments attempts {Req Env A} _.
Arguments outcome {Req Env A} _.

(** [Retrying.__call__(fn, ...)].  The surroundings are scripted: the
    [n]-th element gives the answer the [n]-th attempt meets and the
    elapsed time at which its outcome is recorded (sleeps included).
    After an attempt the driver returns its value, re-raises an
    exception that is neither [TryAgain] nor accepted by [retry], raises
    [retry_error_cls(outcome)] when [stop] holds, and otherwise sleeps
    and attempts again. *)
Fixpoint call {Req Env A} (r : Retrying) (fn : Env -> Req * result A)
    (script : list (Env * Q)) : run Req Env A :=
  match script with
  | [] => {| attempts := []; outcome := None |}
  | (env, elapsed) :: rest =>
      let fut := set_outcome (snd (fn env)) in
      let this :=
        {| sent := fst (fn env); answer := env; recorded := fut;
           seconds_since_start := elapsed |} in
      if negb (is_explicit_retry fut || retry r fut) then
        {| attempts := [this]; outcome := Some (snd (fn env)) |}
      else if stop r elapsed then
        {| attempts := [this]; outcome := Some (Raise (retry_error_cls r fut)) |}
      else
        let later := call r fn rest in
        {| attempts := this :: attempts later; outcome := outcome later |}
  end.

End Tenacity.

(** ** [services/patch.py] *)

Module Patch.
Import Py.

(** The sample types pyroscope is told about.  The two entries the source
    leaves commented out (exception samples, allocation counts) are not
    part of the dictionary. *)
Definition SAMPLE_TYPE_CONFIG : Json.value :=
  Json.JObject
    [ ("cpu-time",
        Json.JObject [ ("units", Json.JString "samples");
                       ("aggregation", Json.JString "sum");
                       ("display-name", Json.JString "cpu_time");
                       ("sampled", Json.JBool true) ]);
      ("wall-time",
        Json.JObject [ ("units", Json.JString "samples");
                       ("aggregation", Json.JString "sum");
                       ("display-name", Json.JString "wall_time");
                       ("sampled", Json.JBool true) ]);
      ("alloc-space",
        Json.JObject [ ("units", Json.JString "bytes");
                       ("aggregation", Json.JString "sum");
                       ("display-name", Json.JString "alloc_space");
                       ("sampled", Json.JBool true) ]);
      ("heap-space",
        Json.JObject [ ("units", Json.JString "bytes");
                       ("aggregation", Json.JString "average");
                       ("display-name", Json.JString "heap_space");
                       ("sampled", Json.JBool false) ]) ].

(** [json.dumps(SAMPLE_TYPE_CONFIG).encode()], evaluated once at import. *)
Definition SAMPLE_TYPE_CONFIG_JSON : list byte :=
  b (Json.dumps SAMPLE_TYPE_CONFIG).

Inductive levelname : Type := WARNING | INFO.

Record log_record : Type := {
  level : levelname;
  message : string;
}.

(** The attributes [__init__] sets. *)
Record PyroscopePprofHTTPExporter : Type := {
  service_name : string;
  token : string;
  endpoint : string;
  max_retry_delay : Z;
  enable_code_provenance : bool;
  _retry_upload : Tenacity.Retrying;
}.

(** The defaults of [__init__]'s keyword arguments. *)
Definition DEFAULT_MAX_RETRY_DELAY : Z := 3.
Definition DEFAULT_ENABLE_CODE_PROVENANCE : bool := false.

(** [PyroscopePprofHTTPExporter.__init__]: the object and the one line it
    logs. *)
Definition __init__ (service_name token endpoint : string)
    (max_retry_delay : Z) (enable_code_provenance : bool)
  : PyroscopePprofHTTPExporter * log_record :=
  ({| service_name := service_name;
      token := token;
      endpoint := endpoint;
      max_retry_delay := max_retry_delay;
      enable_code_provenance := enable_code_provenance;
      _retry_upload :=
        {| Tenacity.wait_multiplier := 1 # 2;
           Tenacity.stop := Tenacity.stop_after_delay max_retry_delay;
           Tenacity.retry_error_cls := UploadFailed;
           Tenacity.retry := Tenacity.retry_if_exception_type is_transport_error |} |},
   if String.eqb token EmptyString
   then {| level := WARNING;
           message := "[ProfileExporter] variable: TOKEN not set, profile will not be report" |}
   else {| level := INFO;
           message := "[ProfileExporter] start export profile to " +:+ endpoint
                      +:+ " with service_name: " +:+ service_name |}).

(** [os.urandom(n)], drawn from the surroundings' supply of bytes. *)
Definition os_urandom (entropy : nat -> byte) (n : nat) : list byte :=
  List.map entropy (seq 0 n).

Definition PART_HEAD : list byte :=
  b ("--%s" +:+ CRLF +:+ "Content-Disposition: form-data; name=" +:+ DQ +:+ "%s"
     +:+ DQ +:+ "; filename=" +:+ DQ +:+ "%s" +:+ DQ +:+ CRLF).

Definition PART_TYPE : list byte :=
  b ("Content-Type: application/octet-stream" +:+ CRLF +:+ CRLF).

(** [_encode_multipart_formdata(data)]: [(content_type, body)].  [None]
    is an exception out of the [%] formatting. *)
Definition _encode_multipart_formdata (entropy : nat -> byte)
    (data : list (list byte * list byte)) : option (list byte * list byte) :=
  let boundary := hexlify (os_urandom entropy 16) in
  parts ← mapM (fun item =>
                  head ← bytes_format PART_HEAD [boundary; fst item; fst item];
                  Some (head ++ PART_TYPE ++ snd item ++ b CRLF)) data;
  last ← bytes_format (b "--%s--") [boundary];
  content_type ← bytes_format (b "multipart/form-data; boundary=%s") [boundary];
  Some (content_type, concat parts ++ last).

(** [_assemble_url(params)]. *)
Definition _assemble_url (self : PyroscopePprofHTTPExporter)
    (params : list (string * value)) : string :=
  endpoint self +:+ "?" +:+ Urllib.urlencode params.

(** The header dictionary holds a [bytes] value (the content type) and a
    [str] value (the authorization). *)
Inductive header_value : Type :=
| HBytes (v : list byte)
| HStr (v : string).

(** The arguments of [client.request]. *)
Record request : Type := {
  method : string;
  url : string;
  body : list byte;
  headers : gmap string header_value;
}.

(** What the connection layer can raise out of [agent.get_connection],
    [client.request] or [client.getresponse]: an [HTTPException], an
    [OSError] (refused or reset connection, timeout, other I/O failure),
    or an exception of another class.  It knows nothing of tenacity or of
    the exporter's own errors. *)
Inductive client_error : Type :=
| ClientHTTPException (msg : string)
| ClientOSError (msg : string)
| ClientOther (cls msg : string).

Definition raised (c : client_error) : exn :=
  match c with
  | ClientHTTPException msg => HTTPException msg
  | ClientOSError msg => OSError msg
  | ClientOther cls msg => OtherException cls msg
  end.

(** What one HTTP attempt meets: an exception of the connection layer,
    or a response with its status. *)
Inductive reply : Type :=
| Fails (e : client_error)
| Responds (status : Z).

(** [_upload_once(body, headers, params)] against one reply: the request
    it hands to the client, and how it ends. *)
Definition _upload_once (self : PyroscopePprofHTTPExporter) (body : list byte)
    (headers : gmap string header_value) (params : list (string * value))
    (resp : reply) : request * result unit :=
  let url := _assemble_url self params in
  ({| method := "POST"; url := url; body := body; headers := headers |},
   match resp with
   | Fails e => Raise (raised e)
   | Responds status =>
       if (200 <=? status) && (status <? 300) then Return tt
       else if 500 <=? status then Raise TryAgain
       else if status =? 400 then
         Raise (ExportError "Server returned 400, check your API key.")
       else if status =? 404 then
         Raise (ExportError "Server returned 404, check your endpoint path.")
       else
         Raise (ExportError ("POST to " +:+ url +:+ ", but got " +:+ str_int status))
   end).

(** What an export call meets: the random bytes, the clock value gzip
    stamps into its header, and the scripted replies of the transport,
    each with the elapsed time at which the retry driver records it. *)
Record surroundings : Type := {
  entropy : nat -> byte;
  mtime : Z;
  transport : list (reply * Q);
}.

(** What an export call takes from outside this module: the parent
    class's [PprofExporter.export], the profile's [SerializeToString], and
    gzip, given as the bytes a [gzip.GzipFile] opened for writing leaves in
    its buffer once it is closed, for a header time and an input. *)
Record collaborators (Events Profile Libs : Type) : Type := {
  pprof_export : Events -> Z -> Z -> result (Profile * Libs);
  SerializeToString : Profile -> list byte;
  gzip_stream : Z -> list byte -> list byte;
}.
Arguments pprof_export {Events Profile Libs} _.
Arguments SerializeToString {Events Profile Libs} _.
Arguments gzip_stream {Events Profile Libs} _.

(** [export(events, start_time_ns, end_time_ns)]. *)
Definition export {Events Profile Libs : Type} (lib : collaborators Events Profile Libs)
    (self : PyroscopePprofHTTPExporter) (events : Events)
    (start_time_ns end_time_ns : Z) (w : surroundings)
  : Tenacity.run request reply (Profile * Libs) :=
  match pprof_export lib events start_time_ns end_time_ns with
  | Raise e => {| Tenacity.attempts := []; Tenacity.outcome := Some (Raise e) |}
  | Return (profile, libs) =>
      let pprof := gzip_stream lib (mtime w) (SerializeToString lib profile) in
      let data := [ (b "profile", pprof);
                    (b "sample_type_config", SAMPLE_TYPE_CONFIG_JSON) ] in
      let params := [ ("name"%string, Str (service_name self));
                      ("spyName"%string, Str "ddtrace");
                      ("from"%string, Int start_time_ns);
                      ("until"%string, Int end_time_ns) ] in
      match _encode_multipart_formdata (entropy w) data with
      | None =>
          {| Tenacity.attempts := [];
             Tenacity.outcome := Some (Raise (OtherException "TypeError" EmptyString)) |}
      | Some (content_type, body) =>
          let headers : gmap string header_value :=
            <["Authorization"%string := HStr ("Bearer " +:+ token self)]>
              (<["Content-Type"%string := HBytes content_type]> ∅) in
          let r := Tenacity.call (_retry_upload self)
                     (_upload_once self body headers params) (transport w) in
          {| Tenacity.attempts := Tenacity.attempts r;
             Tenacity.outcome :=
               match Tenacity.outcome r with
               | Some (Return _) => Some (Return (profile, libs))
               | Some (Raise e) => Some (Raise e)
               | None => None
               end |}
      end
  end.

(** The exporters a profiler instance may hold: one of the framework's
    own, or the pyroscope exporter. *)
Inductive exporter : Type :=
| HostExporter (name : string)
| Pyroscope (e : PyroscopePprofHTTPExporter).

(** The process state the installer touches: [os.environ] and the
    [_build_default_exporters] attribute of [_ProfilerInstance]. *)
Record process (Instance : Type) : Type := {
  environ : gmap string string;
  _build_default_exporters : Instance -> list exporter;
}.
Arguments environ {Instance} _.
Arguments _build_default_exporters {Instance} _.

(** [patch_ddtrace_to_pyroscope(service_name, token, endpoint,
    enable_memory_profiling)]. *)
Definition patch_ddtrace_to_pyroscope {Instance : Type}
    (service_name token endpoint : string) (enable_memory_profiling : bool)
    (p : process Instance) : process Instance :=
  {| environ :=
       if negb enable_memory_profiling
       then <["DD_PROFILING_MEMORY_ENABLED"%string := "False"%string]> (environ p)
       else environ p;
     _build_default_exporters :=
       fun _ =>
         [ Pyroscope (fst (__init__ service_name token endpoint
                             DEFAULT_MAX_RETRY_DELAY DEFAULT_ENABLE_CODE_PROVENANCE)) ] |}.

End Patch.

(** ** The specification's vocabulary *)

Module Spec.
Import Py Patch.

(** [needle] occurs somewhere in [hay]. *)
Definition mentions (needle hay : string) : Prop :=
  exists pre post, hay = pre +:+ needle +:+ post.

(** The outcome of one attempt, in the words of the status table. *)
Inductive UploadOutcome : Type :=
| Success
| RetryableFailure
| TerminalFailure (reason : string).

(** How [_upload_once] expresses these: a plain return, [TryAgain], and
    [ExportError] with its message. *)
Definition classify (r : result unit) : option UploadOutcome :=
  match r with
  | Return _ => Some Success
  | Raise TryAgain => Some RetryableFailure
  | Raise (ExportError reason) => Some (TerminalFailure reason)
  | Raise _ => None
  end.

Definition is_terminal (o : option UploadOutcome) : Prop :=
  match o with
  | Some (TerminalFailure _) => True
  | _ => False
  end.

(** One part of a multipart body, byte for byte. *)
Definition part (boundary field payload : list byte) : list byte :=
  b "--" ++ boundary ++ b CRLF
  ++ b "Content-Disposition: form-data; name=" ++ b DQ ++ field ++ b DQ
  ++ b "; filename=" ++ b DQ ++ field ++ b DQ ++ b CRLF
  ++ b "Content-Type: application/octet-stream" ++ b CRLF ++ b CRLF
  ++ payload ++ b CRLF.

(** The closing delimiter; nothing follows it. *)
Definition terminator (boundary : list byte) : list byte :=
  b "--" ++ boundary ++ b "--".

(** A failure of the transport: a connection error, timeout or other I/O
    failure raised during the attempt. *)
Definition transport_failure (r : reply) : Prop :=
  match r with
  | Fails (ClientHTTPException _) | Fails (ClientOSError _) => True
  | _ => False
  end.

Definition status_between (lo hi : Z) (r : reply) : Prop :=
  match r with
  | Responds status => lo <= status <= hi
  | Fails _ => False
  end.

Definition status_from (lo : Z) (r : reply) : Prop :=
  match r with
  | Responds status => lo <= status
  | Fails _ => False
  end.

(** Every attempt that is followed by another one met a [justified]
    answer. *)
Definition retries_only_after (justified : reply -> Prop)
    (atts : list (Tenacity.attempt request reply)) : Prop :=
  forall i a, atts !! i = Some a -> is_Some (atts !! S i) -> justified (Tenacity.answer a).

(** No attempt that met such an answer is followed by another one. *)
Definition never_retried (which : reply -> Prop)
    (atts : list (Tenacity.attempt request reply)) : Prop :=
  forall i a, atts !! i = Some a -> which (Tenacity.answer a) -> atts !! S i = None.

(** The failures the driver would retry: [TryAgain] and the exception
    classes given to [retry_if_exception_type]. *)
Definition is_retryable (e : exn) : bool :=
  match e with
  | TryAgain | HTTPException _ | OSError _ => true
  | _ => false
  end.

(** An attempt that failed when the time budget was already used up is
    the last one, and the run ends by raising [surfaced e] for its
    failure [e]. *)
Definition gives_up_with {A} (surfaced : exn -> exn) (budget : Z)
    (r : Tenacity.run request reply A) : Prop :=
  forall i a e,
    Tenacity.attempts r !! i = Some a ->
    (inject_Z budget <= Tenacity.seconds_since_start a)%Q ->
    Tenacity.recorded a = FutureException e ->
    Tenacity.attempts r !! S i = None /\ Tenacity.outcome r = Some (Raise (surfaced e)).

(** What the driver configured by [__init__] raises for a failure [e]. *)
Definition wrapped_if_retryable (e : exn) : exn :=
  if is_retryable e then UploadFailed (FutureException e) else e.

(** The sample type document as text. *)
Definition quoted (s : string) : string := DQ +:+ s +:+ DQ.

Definition sample_type_text (name units aggregation display sampled : string)
  : string :=
  quoted name +:+ ": {" +:+ quoted "units" +:+ ": " +:+ quoted units +:+ ", "
  +:+ quoted "aggregation" +:+ ": " +:+ quoted aggregation +:+ ", "
  +:+ quoted "display-name" +:+ ": " +:+ quoted display +:+ ", "
  +:+ quoted "sampled" +:+ ": " +:+ sampled +:+ "}".

Definition SAMPLE_TYPE_CONFIG_TEXT : string :=
  "{" +:+ sample_type_text "cpu-time" "samples" "sum" "cpu_time" "true" +:+ ", "
  +:+ sample_type_text "wall-time" "samples" "sum" "wall_time" "true" +:+ ", "
  +:+ sample_type_text "alloc-space" "bytes" "sum" "alloc_space" "true" +:+ ", "
  +:+ sample_type_text "heap-space" "bytes" "average" "heap_space" "false" +:+ "}".

End Spec.

(** ** The scenarios of the specification's testable properties *)

Module Scenario.
Import Py Patch.

Definition ingest : string := "http://localhost:4040/ingest".

(** The end-to-end scenario: service [helloworld], token [tok123]. *)
Definition exporter : PyroscopePprofHTTPExporter :=
  fst (__init__ "helloworld" "tok123" ingest 3 false).

(** The same exporter with no token configured. *)
Definition exporter_without_token : PyroscopePprofHTTPExporter :=
  fst (__init__ "helloworld" EmptyString ingest 3 false).

(** The same exporter with no time budget at all. *)
Definition exporter_without_budget : PyroscopePprofHTTPExporter :=
  fst (__init__ "helloworld" "tok123" ingest 0 false).

(** A host whose parent exporter yields the profile [abc] and no
    libraries, and a stand-in compressor that stores its input as it is. *)
Definition host : collaborators unit (list byte) (list string) :=
  {| pprof_export := fun events start_time_ns end_time_ns => Return (b "abc", []);
     SerializeToString := fun profile => profile;
     gzip_stream := fun mtime data => data |}.

Definition params : list (string * value) :=
  [ ("name"%string, Str "helloworld"); ("spyName"%string, Str "ddtrace");
    ("from"%string, Int 1000); ("until"%string, Int 2000) ].

(** Fake transports: each reply comes with the elapsed seconds at which
    the driver records it. *)
Definition accepts_at_once : list (reply * Q) := [ (Responds 200, 1 # 10) ].

Definition unavailable_twice : list (reply * Q) :=
  [ (Responds 503, 1 # 10); (Responds 503, 1 # 1); (Responds 200, 2 # 1) ].

Definition broken_past_budget : list (reply * Q) := [ (Responds 500, 7 # 2) ].

Definition refused_past_budget : list (reply * Q) :=
  [ (Fails (ClientOSError "Connection refused"), 7 # 2) ].

Definition status_600_then_200 : list (reply * Q) :=
  [ (Responds 600, 1 # 10); (Responds 200, 1 # 1) ].

Definition unauthorized : list (reply * Q) := [ (Responds 401, 1 # 10) ].

Definition always_500 : list (reply * Q) :=
  [ (Responds 500, 1 # 10); (Responds 500, 1 # 1); (Responds 500, 2 # 1) ].

Definition bad_request : list (reply * Q) :=
  [ (Responds 400, 1 # 10); (Responds 200, 1 # 1) ].

Definition not_found : list (reply * Q) :=
  [ (Responds 404, 1 # 10); (Responds 200, 1 # 1) ].

Definition surroundings_with (script : list (reply * Q)) : surroundings :=
  {| entropy := fun n => Byte.x5a; mtime := 0; transport := script |}.

(** One export call of the scenario against a fake transport. *)
Definition run (self : PyroscopePprofHTTPExporter) (script : list (reply * Q))
  : Tenacity.run request reply (list byte * list string) :=
  export host self tt 1000 2000 (surroundings_with script).

End Scenario.

(** ** [config.py] *)

Module Config.
Import Py.

Inductive ExporterType : Type := GRPC | HTTP.

(** The values of the enumeration's members. *)
Definition ExporterType_value (t : ExporterType) : string :=
  match t with
  | GRPC => "grpc"
  | HTTP => "http"
  end.

(** The [ValueError] of [ExporterType(value)], with the value it was
    given. *)
Inductive config_error : Type :=
| NotAnExporterType (value : string).

(** [ExporterType(value)]: the member with this value, or [ValueError]. *)
Definition ExporterType_of_value (value : string) : config_error + ExporterType :=
  if String.eqb value (ExporterType_value GRPC) then inr GRPC
  else if String.eqb value (ExporterType_value HTTP) then inr HTTP
  else inl (NotAnExporterType value).

(** [c.lower()] on one ASCII character; other bytes are kept. *)
Definition lower_char (c : ascii) : ascii :=
  let n := N_of_ascii c in
  if ((65 <=? n) && (n <=? 90))%N then ascii_of_N (n + 32) else c.

(** [s.lower()], on the ASCII letters of [s].  Python also lowers letters
    outside ASCII; none of them becomes a letter of the words this module
    compares with, so the comparisons below come out the same. *)
Fixpoint lower (s : string) : string :=
  match s with
  | EmptyString => EmptyString
  | String c s' => String (lower_char c) (lower s')
  end.

(** [os.getenv(key, default)]. *)
Definition getenv (environ : gmap string string) (key default : string) : string :=
  match environ !! key with
  | Some value => value
  | None => default
  end.

(** [Config._get_env_bool(key, default)]. *)
Definition _get_env_bool (environ : gmap string string) (key : string)
    (default : bool) : bool :=
  match environ !! key with
  | None => default
  | Some value =>
      existsb (String.eqb (lower value)) ["true"; "1"; "yes"]%string
  end.

Record Config : Type := {
  debug : bool;
  token : string;
  service_name : string;
  otlp_endpoint : string;
  otlp_exporter_type : ExporterType;
  enable_logs : bool;
  enable_traces : bool;
  enable_metrics : bool;
  enable_profiling : bool;
  enable_memory_profiling : bool;
  profiling_endpoint : string;
  http_scheme : string;
  http_address : string;
  http_port : Z;
}.

(** [Config.__init__], reading [os.environ]. *)
Definition __init__ (environ : gmap string string) : config_error + Config :=
  let debug := true in
  match ExporterType_of_value (lower (getenv environ "OTLP_EXPORTER_TYPE" "grpc")) with
  | inl err => inl err
  | inr exporter_type =>
      inr {| debug := debug;
             token := getenv environ "TOKEN" "todo";
             service_name := getenv environ "SERVICE_NAME" "helloworld";
             otlp_endpoint := getenv environ "OTLP_ENDPOINT" "http://localhost:4317";
             otlp_exporter_type := exporter_type;
             enable_logs := _get_env_bool environ "ENABLE_LOGS" debug;
             enable_traces := _get_env_bool environ "ENABLE_TRACES" debug;
             enable_metrics := _get_env_bool environ "ENABLE_METRICS" debug;
             enable_profiling := _get_env_bool environ "ENABLE_PROFILING" debug;
             enable_memory_profiling :=
               _get_env_bool environ "ENABLE_MEMORY_PROFILING" true;
             profiling_endpoint :=
               getenv environ "PROFILING_ENDPOINT" "http://localhost:4040";
             http_scheme := "http";
             http_address := "0.0.0.0";
             http_port := 8080 |}
  end.

End Config.

(** ** [services/profiling.py] *)

Module Profiling.

Record ProfilingConfig : Type := {
  enabled : bool;
  token : string;
  service_name : string;
  endpoint : string;
  enable_memory_profiling : bool;
}.

(** [BaseProfilingService.__init__]: the service's own configuration. *)
Definition __init__ (config : Config.Config) : ProfilingConfig :=
  {| token := Config.token config;
     service_name := Config.service_name config;
     endpoint := Config.profiling_endpoint config;
     enabled := Config.enable_profiling config;
     enable_memory_profiling := Config.enable_memory_profiling config |}.

(** What [start] acts on: the process state the installer touches, and the
    number of ddtrace profilers created and started so far. *)
Record runtime (Instance : Type) : Type := {
  proc : Patch.process Instance;
  profilers_started : nat;
}.
Arguments proc {Instance} _.
Arguments profilers_started {Instance} _.

(** [DatadogProfilingService.start]: nothing when profiling is disabled;
    otherwise the installer runs, and then a [Profiler] is created and
    started. *)
Definition start {Instance : Type} (config : ProfilingConfig)
    (rt : runtime Instance) : runtime Instance :=
  if negb (enabled config) then rt
  else
    {| proc := Patch.patch_ddtrace_to_pyroscope (service_name config) (token config)
                 (endpoint config) (enable_memory_profiling config) (proc rt);
       profilers_started := S (profilers_started rt) |}.

End Profiling.

(** ** [main.py] *)

Module Main.

Inductive levelname : Type := INFO | ERROR.

Record log_record : Type := {
  level : levelname;
  message : string;
}.

(** How a call of [start] or [stop] ends: it returns, it raises an
    [Exception] whose [str] is [message], or it raises something that
    [except Exception] does not catch. *)
Inductive call_result : Type :=
| Done
| Fails (message : string)
| Aborts.

(** A service of the list: [str(service)] and its two methods, acting on
    the state [W] of the process. *)
Record service (W : Type) : Type := {
  name : string;
  start : W -> call_result * W;
  stop : W -> call_result * W;
}.
Arguments name {W} _.
Arguments start {W} _.
Arguments stop {W} _.

(** How [main] ends: [sys.exit(status)], a normal return, an exception
    nobody catches, or not at all (it sleeps until CTRL+C). *)
Inductive ending : Type :=
| Exit (status : Z)
| Returned
| Uncaught
| Sleeping.

Definition ROCKET : string :=
  String "240" (String "159" (String "154" (String "128" EmptyString))).
Definition WAVE : string :=
  String "240" (String "159" (String "145" (String "139" EmptyString))).

(** The first loop of [main]: [None] when every service has started. *)
Fixpoint start_all {W} (services : list (service W)) (w : W)
  : option ending * W * list log_record :=
  match services with
  | [] => (None, w, [])
  | service :: rest =>
      match start service w with
      | (Done, w') =>
          let '(ended, w'', log) := start_all rest w' in
          (ended, w'',
           {| level := INFO; message := "[" +:+ name service +:+ "] service started" |}
           :: log)
      | (Fails e, w') =>
          (Some (Exit 1), w',
           [ {| level := ERROR;
                message := "[" +:+ name service +:+ "] failed to start: " +:+ e |} ])
      | (Aborts, w') => (Some Uncaught, w', [])
      end
  end.

(** The last loop of [main]: [None] when it ran to its end. *)
Fixpoint stop_all {W} (services : list (service W)) (w : W)
  : option ending * W * list log_record :=
  match services with
  | [] => (None, w, [])
  | service :: rest =>
      match stop service w with
      | (Done, w') =>
          let '(ended, w'', log) := stop_all rest w' in
          (ended, w'',
           {| level := INFO; message := "[" +:+ name service +:+ "] service stopped" |}
           :: log)
      | (Fails e, w') =>
          let '(ended, w'', log) := stop_all rest w' in
          (ended, w'',
           {| level := ERROR;
              message := "[" +:+ name service +:+ "] failed to stop: " +:+ e |}
           :: log)
      | (Aborts, w') => (Some Uncaught, w', [])
      end
  end.

(** [main()] on an already built list of services; [interrupted] tells
    whether CTRL+C ever comes while it sleeps. *)
Definition main {W} (services : list (service W)) (interrupted : bool) (w : W)
  : ending * W * list log_record :=
  match start_all services w with
  | (Some ended, w', log) => (ended, w', log)
  | (None, w', log) =>
      let greeting :=
        [ {| level := INFO; message := "[main] " +:+ ROCKET |};
          {| level := INFO; message := "Press CTRL+C to quit" |} ] in
      if interrupted then
        match stop_all services w' with
        | (Some ended, w'', log') => (ended, w'', log ++ greeting ++ log')
        | (None, w'', log') =>
            (Returned, w'',
             log ++ greeting ++ log'
             ++ [ {| level := INFO; message := "[main] " +:+ WAVE |} ])
        end
      else (Sleeping, w', log ++ greeting)
  end.

End Main.

(** ** Notions used to state further properties *)

Module Notions.
Import Py Patch.

(** How often [c] occurs in [s]. *)
Fixpoint count_char (c : ascii) (s : string) : nat :=
  match s with
  | EmptyString => 0%nat
  | String d s' => ((if Ascii.eqb c d then 1 else 0) + count_char c s')%nat
  end.

Definition is_upper (c : ascii) : bool :=
  let n := N_of_ascii c in ((65 <=? n) && (n <=? 90))%N.

(** Two characters are the same, or the same ASCII letter in two cases. *)
Definition same_letter (c d : ascii) : bool :=
  Ascii.eqb c d
  || (is_upper c && (N_of_ascii c + 32 =? N_of_ascii d)%N)
  || (is_upper d && (N_of_ascii d + 32 =? N_of_ascii c)%N).

(** Equality of strings up to the case of ASCII letters. *)
Fixpoint caseless_eqb (s t : string) : bool :=
  match s, t with
  | EmptyString, EmptyString => true
  | String c s', String d t' => same_letter c d && caseless_eqb s' t'
  | _, _ => false
  end.

(** The bytes of one part around its field name and payload, under a
    boundary of 32 bytes. *)
Definition part_overhead : nat := 134.

(** An environment sets a boolean variable to a value the configuration
    takes for true. *)
Definition says_yes (value : string) : bool :=
  caseless_eqb value "true" || caseless_eqb value "1" || caseless_eqb value "yes".

End Notions.

(** ** Sample environments *)

Module Sample.

Definition bare : gmap string string := ∅.

Definition staging : gmap string string :=
  <["TOKEN"%string := "s3cr3t"%string]>
    (<["SERVICE_NAME"%string := "checkout"%string]>
       (<["ENABLE_MEMORY_PROFILING"%string := "no"%string]>
          (<["ENABLE_PROFILING"%string := "YES"%string]>
             (<["PROFILING_ENDPOINT"%string := "http://pyroscope:4040"%string]> ∅)))).

Definition profiling_off : gmap string string :=
  <["ENABLE_PROFILING"%string := "off"%string]> ∅.

Definition tcp_exporter : gmap string string :=
  <["OTLP_EXPORTER_TYPE"%string := "tcp"%string]> ∅.

Definition http_exporter : gmap string string :=
  <["OTLP_EXPORTER_TYPE"%string := "Http"%string]> ∅.

Definition empty_token : gmap string string :=
  <["TOKEN"%string := EmptyString]> ∅.

(** Services that only write their calls into a journal. *)
Definition journal_service (name : string) (starting stopping : Main.call_result)
  : Main.service (list string) :=
  {| Main.name := name;
     Main.start := fun journal => (starting, journal ++ [name +:+ ".start"]);
     Main.stop := fun journal => (stopping, journal ++ [name +:+ ".stop"]) |}.

Definition otlp_up : Main.service (list string) :=
  journal_service "otlp" Main.Done Main.Done.
Definition profiling_up : Main.service (list string) :=
  journal_service "profiling" Main.Done (Main.Fails "busy").
Definition http_down : Main.service (list string) :=
  journal_service "http" (Main.Fails "port in use") Main.Done.
Definition querier_up : Main.service (list string) :=
  journal_service "querier" Main.Done Main.Done.

(** A process whose profiler still has the framework's exporter. *)
Definition fresh (environ : gmap string string) : Profiling.runtime unit :=
  {| Profiling.proc :=
       {| Patch.environ := environ;
          Patch._build_default_exporters := fun _ => [Patch.HostExporter "agent"] |};
     Profiling.profilers_started := 0 |}.

End Sample.

(** * Properties *)

Import Py Patch Spec.

(** ** Decimal numerals *)

Lemma char_in_app c s t : char_in c (s +:+ t) = char_in c s || char_in c t.
Proof.
  induction s as [|d s IH]; simpl; [reflexivity|].
  rewrite IH. apply orb_assoc.
Qed.

Lemma char_in_digit d : 0 <= d < 10 -> char_in (digit d) "0123456789" = true.
Proof.
  intros Hd. rewrite <- (Z2Nat.id d) by lia.
  assert (Z.to_nat d < 10)%nat as Hm by lia.
  revert Hm. generalize (Z.to_nat d). intros m Hm.
  do 10 (destruct m as [|m]; [reflexivity|]). lia.
Qed.

Lemma uint_digits_chars fuel : forall n acc c,
  0 <= n ->
  char_in c (uint_digits fuel n acc) = true ->
  char_in c "0123456789" = true \/ char_in c acc = true.
Proof.
  induction fuel as [|fuel IH]; intros n acc c Hn Hc; simpl in Hc.
  - apply orb_true_iff in Hc as [Hc | Hc]; [left | right; exact Hc].
    apply Ascii.eqb_eq in Hc. subst c.
    apply char_in_digit, Z.mod_pos_bound. lia.
  - destruct (n <? 10).
    + simpl in Hc. apply orb_true_iff in Hc as [Hc | Hc]; [left | right; exact Hc].
      apply Ascii.eqb_eq in Hc. subst c.
      apply char_in_digit, Z.mod_pos_bound. lia.
    + apply IH in Hc; [|apply Z.div_pos; lia].
      destruct Hc as [Hc | Hc]; [left; exact Hc|].
      simpl in Hc. apply orb_true_iff in Hc as [Hc | Hc]; [left | right; exact Hc].
      apply Ascii.eqb_eq in Hc. subst c.
      apply char_in_digit, Z.mod_pos_bound. lia.
Qed.

Lemma str_int_chars n c :
  char_in c (str_int n) = true -> char_in c "-0123456789" = true.
Proof.
  unfold str_int. destruct (n <? 0) eqn:Hneg; intros Hc.
  - apply Z.ltb_lt in Hneg. simpl in Hc.
    apply orb_true_iff in Hc as [Hc | Hc].
    + apply Ascii.eqb_eq in Hc. subst c. reflexivity.
    + apply uint_digits_chars in Hc; [|lia].
      destruct Hc as [Hc | Hc]; [|discriminate].
      change "-0123456789"%string with ("-" +:+ "0123456789").
      rewrite char_in_app, Hc. apply orb_true_r.
  - apply Z.ltb_ge in Hneg.
    apply uint_digits_chars in Hc; [|lia].
    destruct Hc as [Hc | Hc]; [|discriminate].
    change "-0123456789"%string with ("-" +:+ "0123456789").
    rewrite char_in_app, Hc. apply orb_true_r.
Qed.

Lemma digit_val_digit d : 0 <= d < 10 -> digit_val (digit d) = Some d.
Proof.
  intros Hd. rewrite <- (Z2Nat.id d) by lia.
  assert (Z.to_nat d < 10)%nat as Hm by lia.
  revert Hm. generalize (Z.to_nat d). intros m Hm.
  do 10 (destruct m as [|m]; [reflexivity|]). lia.
Qed.

Lemma append_cons c (s t : string) : String c s +:+ t = String c (s +:+ t).
Proof. reflexivity. Qed.

Lemma append_nil_l (t : string) : EmptyString +:+ t = t.
Proof. reflexivity. Qed.

Lemma append_assoc (s t u : string) : (s +:+ t) +:+ u = s +:+ (t +:+ u).
Proof.
  induction s as [|c s IH]; [reflexivity|].
  rewrite !append_cons. congruence.
Qed.

Lemma append_nil_r (s : string) : s +:+ EmptyString = s.
Proof.
  induction s as [|c s IH]; [reflexivity|].
  rewrite append_cons. congruence.
Qed.

(** [uint_digits] puts the numeral of [n], which is not empty, in front of
    the accumulator, and reading that numeral after a value [k] shifts [k]
    and adds [n]. *)
Lemma uint_digits_numeral fuel : forall n acc,
  0 <= n < 10 ^ (Z.of_nat fuel + 1) ->
  exists c ds width,
    uint_digits fuel n acc = String c ds +:+ acc /\ 0 <= width /\
    forall k rest,
      uint_of_digits k (String c ds +:+ rest) = uint_of_digits (k * 10 ^ width + n) rest.
Proof.
  induction fuel as [|fuel IH]; intros n acc Hn.
  - exists (digit (n mod 10)), EmptyString, 1.
    split; [reflexivity|]. split; [lia|].
    intros k rest. simpl.
    change (10 ^ (Z.of_nat 0 + 1)) with 10 in Hn.
    rewrite Z.mod_small by lia. rewrite digit_val_digit by lia.
    f_equal. lia.
  - simpl uint_digits. destruct (n <? 10) eqn:Hsmall.
    + apply Z.ltb_lt in Hsmall.
      exists (digit (n mod 10)), EmptyString, 1.
      split; [reflexivity|]. split; [lia|].
      intros k rest. simpl.
      rewrite Z.mod_small by lia. rewrite digit_val_digit by lia.
      f_equal. lia.
    + apply Z.ltb_ge in Hsmall.
      assert (0 <= n / 10 < 10 ^ (Z.of_nat fuel + 1)) as Hq.
      { split; [apply Z.div_pos; lia|].
        apply Z.div_lt_upper_bound; [lia|].
        replace (Z.of_nat (S fuel) + 1) with (Z.succ (Z.of_nat fuel + 1)) in Hn by lia.
        rewrite Z.pow_succ_r in Hn by lia. lia. }
      destruct (IH (n / 10) (String (digit (n mod 10)) acc) Hq)
        as (c & ds & width & Heq & Hwidth & Hval).
      exists c, (ds +:+ String (digit (n mod 10)) EmptyString), (width + 1).
      split.
      { rewrite Heq, !append_cons, append_assoc. reflexivity. }
      split; [lia|].
      intros k rest.
      rewrite <- append_cons, append_assoc, Hval. simpl.
      rewrite digit_val_digit by (apply Z.mod_pos_bound; lia).
      f_equal. rewrite Z.pow_add_r by lia.
      pose proof (Z.div_mod n 10). lia.
Qed.

Lemma log2_fuel n : 0 <= n -> 0 <= n < 10 ^ (Z.of_nat (Z.to_nat (Z.log2 n)) + 1).
Proof.
  intros Hn. split; [exact Hn|].
  rewrite Z2Nat.id by apply Z.log2_nonneg.
  destruct (Z.eq_dec n 0) as [-> | Hnz]; [reflexivity|].
  apply Z.lt_le_trans with (2 ^ (Z.log2 n + 1)).
  - replace (Z.log2 n + 1) with (Z.succ (Z.log2 n)) by lia.
    apply Z.log2_spec. lia.
  - apply Z.pow_le_mono_l. pose proof (Z.log2_nonneg n). lia.
Qed.

(** [str_int] writes the decimal numeral of its argument: reading it back
    gives the integer. *)
Lemma int_of_str_str_int n : int_of_str (str_int n) = Some n.
Proof.
  unfold str_int. destruct (n <? 0) eqn:Hneg.
  - apply Z.ltb_lt in Hneg.
    destruct (uint_digits_numeral _ (- n) EmptyString (log2_fuel (- n) ltac:(lia)))
      as (c & ds & width & Heq & _ & Hval).
    rewrite Heq, append_nil_r. unfold int_of_str.
    replace (Ascii.eqb "-" "-") with true by reflexivity.
    specialize (Hval 0 EmptyString). rewrite append_nil_r in Hval.
    rewrite Hval. simpl. f_equal. lia.
  - apply Z.ltb_ge in Hneg.
    destruct (uint_digits_numeral _ n EmptyString (log2_fuel n Hneg))
      as (c & ds & width & Heq & _ & Hval).
    assert (char_in c (uint_digits (Z.to_nat (Z.log2 n)) n EmptyString) = true) as Hc.
    { rewrite Heq. simpl. rewrite Ascii.eqb_refl. reflexivity. }
    apply uint_digits_chars in Hc; [|lia]. destruct Hc as [Hc|]; [|discriminate].
    rewrite Heq, append_nil_r.
    specialize (Hval 0 EmptyString). rewrite append_nil_r in Hval.
    unfold int_of_str. destruct (Ascii.eqb c "-") eqn:Hdash.
    + apply Ascii.eqb_eq in Hdash. subst c. discriminate.
    + rewrite Hval. simpl. reflexivity.
Qed.

(** ** Quoting *)

Lemma quote_all_safe safe s :
  (forall c, char_in c s = true -> char_in c (Urllib.ALWAYS_SAFE +:+ safe) = true) ->
  Urllib.quote safe s = s.
Proof.
  induction s as [|c s IH]; intros Hsafe; [reflexivity|].
  simpl. unfold Urllib.quoter.
  rewrite (Hsafe c) by (simpl; rewrite Ascii.eqb_refl; reflexivity).
  rewrite append_cons, append_nil_l, IH; [reflexivity|].
  intros d Hd. apply Hsafe. simpl. rewrite Hd. apply orb_true_r.
Qed.

Lemma numeral_chars_safe c :
  char_in c "-0123456789" = true ->
  char_in c Urllib.ALWAYS_SAFE = true /\ c <> " "%char.
Proof.
  intros Hc. simpl in Hc.
  repeat (apply orb_true_iff in Hc as [Hc | Hc];
          [apply Ascii.eqb_eq in Hc; subst c; split; [reflexivity | discriminate]|]).
  discriminate.
Qed.

(** A decimal numeral passes through [quote_plus] unchanged. *)
Lemma quote_plus_str_int n : Urllib.quote_plus (str_int n) = str_int n.
Proof.
  unfold Urllib.quote_plus.
  destruct (char_in " " (str_int n)) eqn:Hspace.
  - apply str_int_chars, numeral_chars_safe in Hspace. now destruct Hspace.
  - apply quote_all_safe. intros c Hc.
    apply str_int_chars, numeral_chars_safe in Hc as [Hc _].
    rewrite char_in_app, Hc. reflexivity.
Qed.

(** ** The multipart packager *)

Lemma hexlify_length bs : length (hexlify bs) = (2 * length bs)%nat.
Proof. induction bs as [|x bs IH]; simpl; lia. Qed.

Lemma hex_lower_is_hex n : (n < 16)%N -> is_hex_lower (hex_lower n) = true.
Proof.
  intros Hn. rewrite <- (N2Nat.id n).
  assert (N.to_nat n < 16)%nat as Hm by lia.
  revert Hm. generalize (N.to_nat n). intros m Hm.
  do 16 (destruct m as [|m]; [reflexivity|]). lia.
Qed.

Lemma byte_to_N_bound x : (Byte.to_N x < 256)%N.
Proof. destruct x; reflexivity. Qed.

Lemma hexlify_is_hex bs : Forall (fun c => is_hex_lower c = true) (hexlify bs).
Proof.
  induction bs as [|x bs IH]; simpl; [constructor|].
  pose proof (byte_to_N_bound x) as Hx.
  constructor; [|constructor; [|exact IH]].
  - apply hex_lower_is_hex. apply N.Div0.div_lt_upper_bound. lia.
  - apply hex_lower_is_hex. apply N.mod_lt. lia.
Qed.

Lemma os_urandom_length entropy n : length (os_urandom entropy n) = n.
Proof. unfold os_urandom. now rewrite length_map, length_seq. Qed.

Lemma part_head_format boundary field :
  bytes_format PART_HEAD [boundary; field; field]
  = Some (b "--" ++ boundary ++ b CRLF
          ++ b "Content-Disposition: form-data; name=" ++ b DQ ++ field ++ b DQ
          ++ b "; filename=" ++ b DQ ++ field ++ b DQ ++ b CRLF).
Proof. reflexivity. Qed.

Lemma mapM_total {A B} (f : A -> option B) (g : A -> B) (l : list A) :
  (forall x, f x = Some (g x)) -> mapM f l = Some (List.map g l).
Proof.
  intros Hfg. induction l as [|x l IH]; [reflexivity|].
  simpl. rewrite Hfg. simpl. rewrite IH. reflexivity.
Qed.

(** The packager never fails, and its result has this closed form. *)
Lemma encode_multipart_formdata_eq entropy data :
  _encode_multipart_formdata entropy data
  = Some (b "multipart/form-data; boundary=" ++ hexlify (os_urandom entropy 16),
          concat (List.map (fun item => part (hexlify (os_urandom entropy 16))
                                          (fst item) (snd item)) data)
          ++ terminator (hexlify (os_urandom entropy 16))).
Proof.
  unfold _encode_multipart_formdata.
  set (boundary := hexlify (os_urandom entropy 16)).
  rewrite (mapM_total _ (fun item => part boundary (fst item) (snd item))).
  - reflexivity.
  - intros item. rewrite part_head_format.
    unfold mbind, option_bind, part. f_equal.
    repeat rewrite <- app_assoc. reflexivity.
Qed.

(** ** The retry driver *)

Section Driver.
Context {Req Env A : Type}.
Variable r : Tenacity.Retrying.
Variable fn : Env -> Req * result A.

(** What the driver did with its [i]-th attempt: the attempt is the
    callable run against the [i]-th scripted answer, and the driver went on
    only if the outcome asked for a retry and [stop] did not hold. *)
Lemma call_attempt_inv script : forall i a,
  Tenacity.attempts (Tenacity.call r fn script) !! i = Some a ->
  Tenacity.sent a = fst (fn (Tenacity.answer a)) /\
  Tenacity.recorded a = Tenacity.set_outcome (snd (fn (Tenacity.answer a))) /\
  script !! i = Some (Tenacity.answer a, Tenacity.seconds_since_start a) /\
  (if Tenacity.is_explicit_retry (Tenacity.recorded a)
      || Tenacity.retry r (Tenacity.recorded a)
   then if Tenacity.stop r (Tenacity.seconds_since_start a)
        then Tenacity.attempts (Tenacity.call r fn script) !! S i = None /\
             Tenacity.outcome (Tenacity.call r fn script)
             = Some (Raise (Tenacity.retry_error_cls r (Tenacity.recorded a)))
        else True
   else Tenacity.attempts (Tenacity.call r fn script) !! S i = None /\
        Tenacity.outcome (Tenacity.call r fn script)
        = Some (snd (fn (Tenacity.answer a)))).
Proof.
  induction script as [|[env elapsed] rest IH]; intros i a Hi; simpl in Hi.
  - destruct i; discriminate.
  - simpl.
    destruct (Tenacity.is_explicit_retry (Tenacity.set_outcome (snd (fn env)))
              || Tenacity.retry r (Tenacity.set_outcome (snd (fn env)))) eqn:Hretry;
      simpl in Hi |- *.
    + destruct (Tenacity.stop r elapsed) eqn:Hstop; simpl in Hi |- *.
      * destruct i as [|i]; simpl in Hi; [|destruct i; discriminate].
        injection Hi as <-. simpl. rewrite Hretry, Hstop. auto.
      * destruct i as [|i]; simpl in Hi.
        -- injection Hi as <-. simpl. rewrite Hretry, Hstop. auto.
        -- destruct (IH i a Hi) as (Hsent & Hrec & Hscript & Hnext).
           repeat split; assumption.
    + destruct i as [|i]; simpl in Hi; [|destruct i; discriminate].
      injection Hi as <-. simpl. rewrite Hretry. auto.
Qed.

(** An attempt is followed by another one only if its outcome asked for a
    retry and the time budget was not used up. *)
Lemma call_retried script i a :
  Tenacity.attempts (Tenacity.call r fn script) !! i = Some a ->
  is_Some (Tenacity.attempts (Tenacity.call r fn script) !! S i) ->
  Tenacity.is_explicit_retry (Tenacity.recorded a)
  || Tenacity.retry r (Tenacity.recorded a) = true /\
  Tenacity.stop r (Tenacity.seconds_since_start a) = false.
Proof.
  intros Hi [a' Hnext].
  destruct (call_attempt_inv script i a Hi) as (_ & _ & _ & Hstep).
  destruct (_ || _).
  - destruct (Tenacity.stop r _); [|auto].
    destruct Hstep as [Hnone _]. congruence.
  - destruct Hstep as [Hnone _]. congruence.
Qed.

(** The driver makes no attempt that the script does not provide, and
    makes one whenever the script is not empty. *)
Lemma call_attempts_nonempty env elapsed rest :
  exists a later,
    Tenacity.attempts (Tenacity.call r fn ((env, elapsed) :: rest)) = a :: later /\
    Tenacity.answer a = env /\ Tenacity.seconds_since_start a = elapsed.
Proof.
  simpl. destruct (negb _); [|destruct (Tenacity.stop r elapsed)];
    simpl; eauto.
Qed.

End Driver.

(** ** One upload attempt *)

Lemma mentions_intro (pre needle post : string) :
  mentions needle (pre +:+ needle +:+ post).
Proof. exists pre, post. reflexivity. Qed.

Lemma upload_once_request self body headers params resp :
  fst (_upload_once self body headers params resp)
  = {| method := "POST"; url := _assemble_url self params;
       body := body; headers := headers |}.
Proof. reflexivity. Qed.

Lemma upload_once_accepted self body headers params status :
  200 <= status <= 299 ->
  snd (_upload_once self body headers params (Responds status)) = Return tt.
Proof.
  intros H. unfold _upload_once. cbn [snd].
  replace ((200 <=? status) && (status <? 300)) with true
    by (symmetry; apply andb_true_iff; lia).
  reflexivity.
Qed.

(** C1, as the code has it: a response status in 200-299 is a success; a
    status of 500 or more (5xx, and 600 and above as well) is a retryable
    failure; 400 is a terminal failure that mentions checking the API key;
    404 is a terminal failure that mentions checking the endpoint path;
    every other status (below 200, 3xx, the rest of 4xx) is a terminal
    failure whose message contains the request URL and the status code. *)
Theorem upload_once_classifies_status self body headers params status :
  let attempt := _upload_once self body headers params (Responds status) in
  (200 <= status <= 299 -> classify (snd attempt) = Some Success) /\
  (500 <= status -> classify (snd attempt) = Some RetryableFailure) /\
  (status = 400 ->
     exists reason, classify (snd attempt) = Some (TerminalFailure reason) /\
                    mentions "check your API key" reason) /\
  (status = 404 ->
     exists reason, classify (snd attempt) = Some (TerminalFailure reason) /\
                    mentions "check your endpoint path" reason) /\
  (status < 200 \/ 300 <= status < 500 -> status <> 400 -> status <> 404 ->
     exists reason, classify (snd attempt) = Some (TerminalFailure reason) /\
                    mentions (url (fst attempt)) reason /\
                    mentions (str_int status) reason).
Proof.
  cbv zeta. unfold _upload_once. cbn [fst snd url].
  repeat split.
  - intros H. replace ((200 <=? status) && (status <? 300)) with true
      by (symmetry; apply andb_true_iff; lia). reflexivity.
  - intros H. replace ((200 <=? status) && (status <? 300)) with false
      by (symmetry; apply andb_false_iff; lia).
    replace (500 <=? status) with true by (symmetry; apply Z.leb_le; lia).
    reflexivity.
  - intros ->. eexists. split; [reflexivity|].
    exact (mentions_intro "Server returned 400, " "check your API key" ".").
  - intros ->. eexists. split; [reflexivity|].
    exact (mentions_intro "Server returned 404, " "check your endpoint path" ".").
  - intros Hrange H400 H404.
    replace ((200 <=? status) && (status <? 300)) with false
      by (symmetry; apply andb_false_iff; lia).
    replace (500 <=? status) with false by (symmetry; apply Z.leb_gt; lia).
    replace (status =? 400) with false by (symmetry; apply Z.eqb_neq; lia).
    replace (status =? 404) with false by (symmetry; apply Z.eqb_neq; lia).
    eexists. split; [reflexivity|]. split.
    + apply mentions_intro.
    + exists ("POST to " +:+ _assemble_url self params +:+ ", but got "), EmptyString.
      rewrite append_nil_r, !append_assoc. reflexivity.
Qed.

(** The status table at work on the scenario's exporter. *)
Lemma upload_once_classifies_status_witness :
  let attempt status :=
    _upload_once Scenario.exporter [] ∅ Scenario.params (Responds status) in
  classify (snd (attempt 204)) = Some Success /\
  classify (snd (attempt 503)) = Some RetryableFailure /\
  (exists reason, classify (snd (attempt 400)) = Some (TerminalFailure reason) /\
                  mentions "check your API key" reason) /\
  (exists reason, classify (snd (attempt 404)) = Some (TerminalFailure reason) /\
                  mentions "check your endpoint path" reason) /\
  (exists reason,
     classify (snd (attempt 401)) = Some (TerminalFailure reason) /\
     mentions "http://localhost:4040/ingest?name=helloworld&spyName=ddtrace&from=1000&until=2000"
       reason /\
     mentions "401" reason).
Proof.
  cbv zeta.
  split; [apply (upload_once_classifies_status Scenario.exporter [] ∅ Scenario.params 204); lia|].
  split; [apply (upload_once_classifies_status Scenario.exporter [] ∅ Scenario.params 503); lia|].
  split; [apply (upload_once_classifies_status Scenario.exporter [] ∅ Scenario.params 400); lia|].
  split; [apply (upload_once_classifies_status Scenario.exporter [] ∅ Scenario.params 404); lia|].
  apply (upload_once_classifies_status Scenario.exporter [] ∅ Scenario.params 401); lia.
Defined.

(** C1, as the specification states it, fails at status 600: the attempt asks for a
    retry instead of failing for good. *)
Lemma status_600_is_not_terminal :
  classify (snd (_upload_once Scenario.exporter [] ∅ Scenario.params (Responds 600)))
  = Some RetryableFailure /\
  ~ is_terminal
      (classify (snd (_upload_once Scenario.exporter [] ∅ Scenario.params (Responds 600)))).
Proof. split; [reflexivity|]. intros H. exact H. Qed.

(** C4: for every ordered mapping of field names to payloads, the packager
    returns the content type [multipart/form-data; boundary=] followed by
    the boundary, and a body made of one part per entry, in order, each
    framed byte for byte as [part] says, then [--boundary--] and nothing
    after it; the boundary is the hexadecimal form, 32 characters long, of
    16 bytes obtained from [os.urandom]. *)
Theorem multipart_body_byte_exact (entropy : nat -> byte)
    (data : list (list byte * list byte)) :
  exists random boundary,
    random = os_urandom entropy 16 /\ length random = 16%nat /\
    boundary = hexlify random /\ length boundary = 32%nat /\
    Forall (fun c => is_hex_lower c = true) boundary /\
    _encode_multipart_formdata entropy data
    = Some (b "multipart/form-data; boundary=" ++ boundary,
            concat (List.map (fun item => part boundary (fst item) (snd item)) data)
            ++ b "--" ++ boundary ++ b "--").
Proof.
  exists (os_urandom entropy 16), (hexlify (os_urandom entropy 16)).
  split; [reflexivity|]. split; [apply os_urandom_length|].
  split; [reflexivity|].
  split; [rewrite hexlify_length, os_urandom_length; reflexivity|].
  split; [apply hexlify_is_hex|].
  apply encode_multipart_formdata_eq.
Qed.

(** ** The installer *)

(** C9: after [patch_ddtrace_to_pyroscope], the profiler's default-exporter
    factory returns a list with one element, a [PyroscopePprofHTTPExporter]
    holding the given service name, token and endpoint (and the default
    retry budget of 3 seconds), whatever the factory returned before. *)
Theorem patched_factory_returns_single_exporter {Instance : Type}
    (service_name0 token0 endpoint0 : string) (enable_memory_profiling : bool)
    (p : process Instance) (instance : Instance) :
  exists e,
    _build_default_exporters
      (patch_ddtrace_to_pyroscope service_name0 token0 endpoint0
         enable_memory_profiling p) instance
    = [Pyroscope e] /\
    service_name e = service_name0 /\ token e = token0 /\ endpoint e = endpoint0 /\
    max_retry_delay e = DEFAULT_MAX_RETRY_DELAY /\
    DEFAULT_MAX_RETRY_DELAY = 3.
Proof. eexists. split; [reflexivity|]. repeat split. Qed.

(** ** One export call *)

Lemma retry_decision_is_retryable e :
  Tenacity.is_explicit_retry (FutureException e)
  || Tenacity.retry_if_exception_type is_transport_error (FutureException e)
  = is_retryable e.
Proof. destruct e; reflexivity. Qed.

Lemma sample_type_config_text : SAMPLE_TYPE_CONFIG_JSON = b SAMPLE_TYPE_CONFIG_TEXT.
Proof. reflexivity. Qed.

Section Exporter.
Context {Events Profile Libs : Type}.
Variable lib : collaborators Events Profile Libs.

(** An exporter as [__init__] builds it. *)
Variables (service_name0 token0 endpoint0 : string).
Variables (max_retry_delay0 : Z) (enable_code_provenance0 : bool).

Abbreviation self :=
  (fst (__init__ service_name0 token0 endpoint0 max_retry_delay0 enable_code_provenance0)).
Abbreviation boundary_of w := (hexlify (os_urandom (entropy w) 16)).
Abbreviation params_of start_time_ns end_time_ns :=
  [ ("name"%string, Str service_name0); ("spyName"%string, Str "ddtrace");
    ("from"%string, Int start_time_ns); ("until"%string, Int end_time_ns) ].
Abbreviation body_of w profile :=
  (part (boundary_of w) (b "profile") (gzip_stream lib (mtime w) (SerializeToString lib profile))
   ++ part (boundary_of w) (b "sample_type_config") SAMPLE_TYPE_CONFIG_JSON
   ++ b "--" ++ boundary_of w ++ b "--").
Abbreviation headers_of w :=
  (<["Authorization"%string := HStr ("Bearer " +:+ token0)]>
     (<["Content-Type"%string :=
          HBytes (b "multipart/form-data; boundary=" ++ boundary_of w)]>
        (∅ : gmap string header_value))).
Abbreviation upload_run start_time_ns end_time_ns w profile :=
  (Tenacity.call (_retry_upload self)
     (_upload_once self (body_of w profile) (headers_of w)
        (params_of start_time_ns end_time_ns))
     (transport w)).

(** [export] is the retry driver run on [_upload_once] with the packaged
    body, the two headers and the four parameters; its value is the
    parent's pair when the driver returns. *)
Lemma export_eq events s e w profile libs :
  pprof_export lib events s e = Return (profile, libs) ->
  Tenacity.attempts (export lib self events s e w)
  = Tenacity.attempts (upload_run s e w profile) /\
  Tenacity.outcome (export lib self events s e w)
  = match Tenacity.outcome (upload_run s e w profile) with
    | Some (Return _) => Some (Return (profile, libs))
    | Some (Raise exn) => Some (Raise exn)
    | None => None
    end.
Proof.
  intros Hparent. unfold export.
  rewrite Hparent, encode_multipart_formdata_eq.
  cbn [List.map concat fst snd]. unfold terminator.
  rewrite app_nil_r, <- !app_assoc. split; reflexivity.
Qed.

Lemma export_parent_raises events s e w exn :
  pprof_export lib events s e = Raise exn ->
  Tenacity.attempts (export lib self events s e w) = [] /\
  Tenacity.outcome (export lib self events s e w) = Some (Raise exn).
Proof. intros Hparent. unfold export. rewrite Hparent. split; reflexivity. Qed.

(** Every attempt of an export call hands the same request to the client. *)
Lemma export_attempt_request events s e w i a :
  Tenacity.attempts (export lib self events s e w) !! i = Some a ->
  exists profile libs,
    pprof_export lib events s e = Return (profile, libs) /\
    Tenacity.attempts (upload_run s e w profile) !! i = Some a /\
    Tenacity.sent a
    = {| method := "POST";
         url := _assemble_url self (params_of s e);
         body := body_of w profile;
         headers := headers_of w |}.
Proof.
  intros Hi.
  destruct (pprof_export lib events s e) as [[profile libs]|exn] eqn:Hparent.
  - destruct (export_eq events s e w profile libs Hparent) as [Hatt _].
    rewrite Hatt in Hi. exists profile, libs.
    split; [reflexivity|]. split; [exact Hi|].
    destruct (call_attempt_inv _ _ _ _ _ Hi) as (Hsent & _).
    rewrite Hsent. apply upload_once_request.
  - destruct (export_parent_raises events s e w exn Hparent) as [Hatt _].
    rewrite Hatt in Hi. destruct i; discriminate.
Qed.


(** An export call whose parent returned makes at least one attempt as
    soon as the transport has an answer. *)
Lemma export_attempts_nonempty events s e w profile libs resp elapsed rest :
  pprof_export lib events s e = Return (profile, libs) ->
  transport w = (resp, elapsed) :: rest ->
  exists a later,
    Tenacity.attempts (export lib self events s e w) = a :: later /\
    Tenacity.answer a = resp /\ Tenacity.seconds_since_start a = elapsed.
Proof.
  intros Hparent Htransport.
  destruct (export_eq events s e w profile libs Hparent) as [Hatt _].
  rewrite Hatt, Htransport. apply call_attempts_nonempty.
Qed.

(** How the driver configured by [__init__] decides after an attempt of
    [_upload_once]: it retries exactly after a transport failure or a
    status of 500 or more. *)
Lemma upload_retry_decision body headers params resp :
  Tenacity.is_explicit_retry
    (Tenacity.set_outcome (snd (_upload_once self body headers params resp)))
  || Tenacity.retry (_retry_upload self)
       (Tenacity.set_outcome (snd (_upload_once self body headers params resp)))
  = true
  <-> transport_failure resp \/ status_from 500 resp.
Proof.
  destruct resp as [[msg | msg | cls msg] | status]; cbn.
  - intuition.
  - intuition.
  - split; [discriminate | intros [[] | []]].
  - destruct ((200 <=? status) && (status <? 300)) eqn:Hok; cbn.
    + apply andb_true_iff in Hok. split; [discriminate | intros [[] | H]; lia].
    + destruct (500 <=? status) eqn:H500; cbn.
      * apply Z.leb_le in H500. intuition.
      * apply Z.leb_gt in H500.
        destruct (status =? 400); cbn; [split; [discriminate | intros [[] | H]; lia]|].
        destruct (status =? 404); cbn; split;
          solve [discriminate | intros [[] | H]; lia].
Qed.

(** C2, as the code has it: every request of an export call carries the
    header [Authorization] with the value [Bearer ] followed by the token;
    when the token is empty the header is still there, with the value
    [Bearer ] and nothing after it. *)
Theorem authorization_header_is_bearer_token events s e w i a :
  Tenacity.attempts (export lib self events s e w) !! i = Some a ->
  headers (Tenacity.sent a) !! "Authorization"%string
  = Some (HStr ("Bearer " +:+ token0)) /\
  (token0 = EmptyString ->
   headers (Tenacity.sent a) !! "Authorization"%string = Some (HStr "Bearer ")).
Proof.
  intros Hi.
  destruct (export_attempt_request events s e w i a Hi) as (profile & libs & _ & _ & Hsent).
  rewrite Hsent. cbn [headers].
  split.
  - apply lookup_insert_eq.
  - intros ->. apply lookup_insert_eq.
Qed.

(** C3, as the code has it: an attempt is followed by another one only if
    it met a transport failure or a response with a status of 500 or more
    (which includes statuses of 600 and above); an attempt whose response
    status is in 400-499 is never followed by another one. *)
Theorem retries_only_after_transport_failure_or_status_from_500 events s e w :
  retries_only_after (fun resp => transport_failure resp \/ status_from 500 resp)
    (Tenacity.attempts (export lib self events s e w)) /\
  never_retried (status_between 400 499)
    (Tenacity.attempts (export lib self events s e w)).
Proof.
  assert (retries_only_after (fun resp => transport_failure resp \/ status_from 500 resp)
            (Tenacity.attempts (export lib self events s e w))) as Honly.
  { intros i a Hi Hnext.
    destruct (export_attempt_request events s e w i a Hi)
      as (profile & libs & Hparent & Hcall & _).
    destruct (export_eq events s e w profile libs Hparent) as [Hatt _].
    rewrite Hatt in Hnext.
    destruct (call_retried _ _ _ _ _ Hcall Hnext) as [Hretry _].
    destruct (call_attempt_inv _ _ _ _ _ Hcall) as (_ & Hrec & _).
    rewrite Hrec in Hretry. apply upload_retry_decision in Hretry. exact Hretry. }
  split; [exact Honly|].
  intros i a Hi H4xx.
  destruct (Tenacity.attempts (export lib self events s e w) !! S i) as [a'|] eqn:Hnext;
    [|reflexivity].
  exfalso. specialize (Honly i a Hi (ex_intro _ a' Hnext)).
  destruct (Tenacity.answer a) as [err | status]; cbn in H4xx, Honly; [exact H4xx|].
  destruct Honly as [[] | H500]. lia.
Qed.

(** C5, as the code has it: an attempt that fails when the elapsed time has
    reached [max_retry_delay] is the last one; if its failure is one the
    driver retries ([TryAgain], a transport error) the export call raises
    [UploadFailed] built from that attempt, which carries the failure;
    any other failure is raised as it is. *)
Theorem budget_exhaustion_raises_upload_failed events s e w :
  gives_up_with wrapped_if_retryable max_retry_delay0 (export lib self events s e w).
Proof.
  intros i a exn Hi Hbudget Hrec.
  destruct (export_attempt_request events s e w i a Hi)
    as (profile & libs & Hparent & Hcall & _).
  destruct (export_eq events s e w profile libs Hparent) as [Hatt Hout].
  rewrite Hatt, Hout.
  destruct (call_attempt_inv _ _ _ _ _ Hcall) as (_ & Hrec' & _ & Hstep).
  set (driver := upload_run s e w profile) in *.
  rewrite Hrec in Hstep. cbn [_retry_upload __init__ fst Tenacity.retry] in Hstep.
  rewrite retry_decision_is_retryable in Hstep.
  unfold wrapped_if_retryable.
  destruct (is_retryable exn).
  - cbn [Tenacity.stop Tenacity.retry_error_cls] in Hstep.
    unfold Tenacity.stop_after_delay in Hstep.
    apply Qle_bool_iff in Hbudget. rewrite Hbudget in Hstep.
    destruct Hstep as [Hnone Hraise]. rewrite Hraise. split; [exact Hnone | reflexivity].
  - destruct Hstep as [Hnone Hraise]. rewrite Hraise.
    rewrite Hrec in Hrec'.
    destruct (snd (_upload_once _ _ _ _ (Tenacity.answer a))) as [[]|exn'];
      cbn in Hrec'; [discriminate|].
    injection Hrec' as ->. split; [exact Hnone | reflexivity].
Qed.

(** C6: the URL of every request of an export call is the endpoint, a
    question mark, and the [urlencode] of the four parameters [name],
    [spyName], [from], [until] in this order, that is
    [name=<quoted service name>&spyName=ddtrace&from=<start>&until=<end>]
    with the times as decimal numerals. *)
Theorem request_url_has_four_parameters events s e w i a :
  Tenacity.attempts (export lib self events s e w) !! i = Some a ->
  url (Tenacity.sent a)
  = endpoint0 +:+ "?" +:+ Urllib.urlencode (params_of s e) /\
  Urllib.urlencode (params_of s e)
  = "name=" +:+ Urllib.quote_plus service_name0 +:+ "&spyName=ddtrace&from="
    +:+ str_int s +:+ "&until=" +:+ str_int e.
Proof.
  intros Hi.
  destruct (export_attempt_request events s e w i a Hi) as (profile & libs & _ & _ & Hsent).
  rewrite Hsent. split; [reflexivity|].
  unfold Urllib.urlencode. cbn [List.map fst snd str join].
  rewrite !quote_plus_str_int.
  change (Urllib.quote_plus "name") with "name"%string.
  change (Urllib.quote_plus "spyName") with "spyName"%string.
  change (Urllib.quote_plus "ddtrace") with "ddtrace"%string.
  change (Urllib.quote_plus "from") with "from"%string.
  change (Urllib.quote_plus "until") with "until"%string.
  rewrite !append_assoc. reflexivity.
Qed.

(** C8: when [export] returns, it returns the very pair [(profile, libs)]
    that the parent's [export] produced, whatever the upload did in
    between; and it does return that pair as soon as an attempt is answered
    with a status in 200-299. *)
Theorem export_returns_parent_pair events s e w :
  (forall pair,
     Tenacity.outcome (export lib self events s e w) = Some (Return pair) ->
     pprof_export lib events s e = Return pair) /\
  (forall profile libs i a,
     pprof_export lib events s e = Return (profile, libs) ->
     Tenacity.attempts (export lib self events s e w) !! i = Some a ->
     status_between 200 299 (Tenacity.answer a) ->
     Tenacity.outcome (export lib self events s e w) = Some (Return (profile, libs))).
Proof.
  split.
  - intros pair Hout.
    destruct (pprof_export lib events s e) as [[profile libs]|exn] eqn:Hparent.
    + destruct (export_eq events s e w profile libs Hparent) as [_ Heq].
      rewrite Heq in Hout.
      destruct (Tenacity.outcome (upload_run s e w profile)) as [[[]|exn]|];
        [|discriminate..].
      injection Hout as <-. reflexivity.
    + destruct (export_parent_raises events s e w exn Hparent) as [_ Heq].
      rewrite Heq in Hout. discriminate.
  - intros profile libs i a Hparent Hi Hok.
    destruct (export_eq events s e w profile libs Hparent) as [Hatt Hout].
    rewrite Hatt in Hi. rewrite Hout.
    destruct (call_attempt_inv _ _ _ _ _ Hi) as (_ & Hrec & _ & Hstep).
    set (driver := upload_run s e w profile) in *.
    destruct (Tenacity.answer a) as [err | status]; cbn in Hok; [destruct Hok|].
    rewrite upload_once_accepted in Hrec, Hstep by exact Hok.
    rewrite Hrec in Hstep.
    change (Tenacity.is_explicit_retry (Tenacity.set_outcome (Return tt))
            || Tenacity.retry (_retry_upload self) (Tenacity.set_outcome (Return tt)))
      with false in Hstep.
    destruct Hstep as [_ Hreturn]. rewrite Hreturn. reflexivity.
Qed.

(** C10: the body of every request of an export call has exactly two parts,
    in this order: [profile] with the gzip stream of the serialized profile,
    then [sample_type_config] with [SAMPLE_TYPE_CONFIG_JSON]; this constant
    is the serialization of a dictionary whose keys are [cpu-time],
    [wall-time], [alloc-space] and [heap-space], and depends on nothing of
    the call. *)
Theorem export_body_has_profile_then_sample_type_config events s e w i a :
  Tenacity.attempts (export lib self events s e w) !! i = Some a ->
  (exists profile libs,
     pprof_export lib events s e = Return (profile, libs) /\
     body (Tenacity.sent a)
     = part (boundary_of w) (b "profile")
         (gzip_stream lib (mtime w) (SerializeToString lib profile))
       ++ part (boundary_of w) (b "sample_type_config") SAMPLE_TYPE_CONFIG_JSON
       ++ b "--" ++ boundary_of w ++ b "--") /\
  SAMPLE_TYPE_CONFIG_JSON = b (Json.dumps SAMPLE_TYPE_CONFIG) /\
  Json.keys SAMPLE_TYPE_CONFIG
  = ["cpu-time"; "wall-time"; "alloc-space"; "heap-space"]%string /\
  SAMPLE_TYPE_CONFIG_JSON = b SAMPLE_TYPE_CONFIG_TEXT.
Proof.
  intros Hi.
  destruct (export_attempt_request events s e w i a Hi)
    as (profile & libs & Hparent & _ & Hsent).
  split; [|repeat split].
  exists profile, libs. split; [exact Hparent|].
  rewrite Hsent. reflexivity.
Qed.

End Exporter.

(** ** The scenarios, run *)

(** The end-to-end scenario carries [Authorization: Bearer tok123]; the
    exporter without a token carries [Authorization: Bearer ]. *)
Lemma authorization_header_is_bearer_token_witness :
  (exists a,
     Tenacity.attempts (Scenario.run Scenario.exporter Scenario.accepts_at_once) !! 0%nat
     = Some a /\
     headers (Tenacity.sent a) !! "Authorization"%string = Some (HStr "Bearer tok123")) /\
  (exists a,
     Tenacity.attempts
       (Scenario.run Scenario.exporter_without_token Scenario.accepts_at_once) !! 0%nat
     = Some a /\
     headers (Tenacity.sent a) !! "Authorization"%string = Some (HStr "Bearer ")).
Proof.
  split.
  - eexists. split; [vm_compute; reflexivity|].
    apply (authorization_header_is_bearer_token Scenario.host "helloworld"
             "tok123" Scenario.ingest 3 false
             tt 1000 2000 (Scenario.surroundings_with Scenario.accepts_at_once) 0%nat).
    vm_compute. reflexivity.
  - eexists. split; [vm_compute; reflexivity|].
    apply (authorization_header_is_bearer_token Scenario.host "helloworld"
             EmptyString Scenario.ingest 3 false
             tt 1000 2000 (Scenario.surroundings_with Scenario.accepts_at_once) 0%nat).
    + vm_compute. reflexivity.
    + reflexivity.
Defined.

(** C2, as the specification states it, fails for an exporter without a token: the
    request still has an [Authorization] header. *)
Lemma request_without_token_has_authorization_header :
  token Scenario.exporter_without_token = EmptyString /\
  exists a,
    Tenacity.attempts
      (Scenario.run Scenario.exporter_without_token Scenario.accepts_at_once) !! 0%nat
    = Some a /\
    headers (Tenacity.sent a) !! "Authorization"%string <> None.
Proof.
  split; [reflexivity|].
  eexists. split; [vm_compute; reflexivity|].
  vm_compute. discriminate.
Qed.

(** A 503 is followed by a second attempt; a 401 is not. *)
Lemma retries_only_after_transport_failure_or_status_from_500_witness :
  (exists a,
     Tenacity.attempts (Scenario.run Scenario.exporter Scenario.unavailable_twice) !! 0%nat
     = Some a /\
     (transport_failure (Tenacity.answer a) \/ status_from 500 (Tenacity.answer a))) /\
  (exists a,
     Tenacity.attempts (Scenario.run Scenario.exporter Scenario.unauthorized) !! 0%nat
     = Some a /\
     Tenacity.attempts (Scenario.run Scenario.exporter Scenario.unauthorized) !! 1%nat
     = None).
Proof.
  split.
  - eexists. split; [vm_compute; reflexivity|].
    eapply (proj1 (retries_only_after_transport_failure_or_status_from_500
                     Scenario.host
                     "helloworld" "tok123" Scenario.ingest 3 false
                     tt 1000 2000 (Scenario.surroundings_with Scenario.unavailable_twice))
              0%nat).
    + vm_compute. reflexivity.
    + vm_compute. eexists. reflexivity.
  - eexists. split; [vm_compute; reflexivity|].
    eapply (proj2 (retries_only_after_transport_failure_or_status_from_500
                     Scenario.host
                     "helloworld" "tok123" Scenario.ingest 3 false
                     tt 1000 2000 (Scenario.surroundings_with Scenario.unauthorized))
              0%nat).
    + vm_compute. reflexivity.
    + vm_compute. split; discriminate.
Defined.

(** C3, as the specification states it, fails when the server answers 600: that
    attempt is followed by a second one, though it met neither a transport
    failure nor a 5xx status. *)
Lemma retry_follows_status_600 :
  ~ retries_only_after
      (fun resp => transport_failure resp \/ status_between 500 599 resp)
      (Tenacity.attempts (Scenario.run Scenario.exporter Scenario.status_600_then_200)).
Proof.
  intros Hclaim.
  assert (exists a,
            Tenacity.attempts
              (Scenario.run Scenario.exporter Scenario.status_600_then_200) !! 0%nat
            = Some a /\ Tenacity.answer a = Responds 600) as (a & Hfirst & Hanswer).
  { eexists. split; [vm_compute; reflexivity | reflexivity]. }
  assert (is_Some (Tenacity.attempts
                     (Scenario.run Scenario.exporter Scenario.status_600_then_200) !! 1%nat))
    as Hsecond.
  { vm_compute. eexists. reflexivity. }
  specialize (Hclaim 0%nat a Hfirst Hsecond).
  rewrite Hanswer in Hclaim. cbn in Hclaim.
  destruct Hclaim as [[] | [_ Hhigh]]. lia.
Qed.

(** A 500 recorded at 3.5 seconds, past the budget of 3, ends the run with
    [UploadFailed] around [TryAgain]. *)
Lemma budget_exhaustion_raises_upload_failed_witness :
  Tenacity.attempts (Scenario.run Scenario.exporter Scenario.broken_past_budget) !! 1%nat
  = None /\
  Tenacity.outcome (Scenario.run Scenario.exporter Scenario.broken_past_budget)
  = Some (Raise (UploadFailed (FutureException TryAgain))).
Proof.
  eapply (budget_exhaustion_raises_upload_failed Scenario.host "helloworld"
             "tok123" Scenario.ingest 3 false
            tt 1000 2000 (Scenario.surroundings_with Scenario.broken_past_budget)
            0%nat _ TryAgain).
  - vm_compute. reflexivity.
  - apply Qle_bool_iff. vm_compute. reflexivity.
  - reflexivity.
Defined.

(** C5, as the specification states it, fails in that run: what is raised is not the
    last failure, [TryAgain], itself. *)
Lemma exhausted_budget_does_not_raise_last_failure_itself :
  ~ gives_up_with (fun e => e) 3
      (Scenario.run Scenario.exporter Scenario.broken_past_budget).
Proof.
  intros Hclaim.
  assert (exists a,
            Tenacity.attempts
              (Scenario.run Scenario.exporter Scenario.broken_past_budget) !! 0%nat
            = Some a /\
            (inject_Z 3 <= Tenacity.seconds_since_start a)%Q /\
            Tenacity.recorded a = FutureException TryAgain)
    as (a & Hlast & Hlate & Hfailure).
  { eexists. split; [vm_compute; reflexivity|].
    split; [apply Qle_bool_iff; vm_compute|]; reflexivity. }
  destruct (Hclaim 0%nat a TryAgain Hlast Hlate Hfailure) as [_ Hraised].
  vm_compute in Hraised. discriminate.
Qed.

(** The end-to-end scenario's URL. *)
Lemma request_url_has_four_parameters_witness :
  exists a,
    Tenacity.attempts (Scenario.run Scenario.exporter Scenario.accepts_at_once) !! 0%nat
    = Some a /\
    url (Tenacity.sent a)
    = "http://localhost:4040/ingest?name=helloworld&spyName=ddtrace&from=1000&until=2000"%string.
Proof.
  eexists. split; [vm_compute; reflexivity|].
  etransitivity.
  - apply (request_url_has_four_parameters Scenario.host "helloworld"
             "tok123" Scenario.ingest 3 false
             tt 1000 2000 (Scenario.surroundings_with Scenario.accepts_at_once) 0%nat).
    vm_compute. reflexivity.
  - vm_compute. reflexivity.
Defined.

(** After two 503 answers and a 200, the export call returns the parent's
    pair. *)
Lemma export_returns_parent_pair_witness :
  Tenacity.outcome (Scenario.run Scenario.exporter Scenario.unavailable_twice)
  = Some (Return (b "abc", [])) /\
  pprof_export Scenario.host tt 1000 2000 = Return (b "abc", []).
Proof.
  assert (Tenacity.outcome (Scenario.run Scenario.exporter Scenario.unavailable_twice)
          = Some (Return (b "abc", []))) as Hreturned.
  { eapply (proj2 (export_returns_parent_pair Scenario.host "helloworld"
                     "tok123" Scenario.ingest 3 false tt 1000 2000
                     (Scenario.surroundings_with Scenario.unavailable_twice))
              (b "abc") [] 2%nat).
    - reflexivity.
    - vm_compute. reflexivity.
    - vm_compute. split; discriminate. }
  split; [exact Hreturned|].
  apply (proj1 (export_returns_parent_pair Scenario.host "helloworld"
                     "tok123" Scenario.ingest 3 false tt 1000 2000
                  (Scenario.surroundings_with Scenario.unavailable_twice))).
  exact Hreturned.
Defined.

(** The end-to-end scenario's body: the profile part, then the sample type
    part, under the boundary that sixteen random bytes [5a] give. *)
Lemma export_body_has_profile_then_sample_type_config_witness :
  exists a,
    Tenacity.attempts (Scenario.run Scenario.exporter Scenario.accepts_at_once) !! 0%nat
    = Some a /\
    body (Tenacity.sent a)
    = part (b "5a5a5a5a5a5a5a5a5a5a5a5a5a5a5a5a") (b "profile") (b "abc")
      ++ part (b "5a5a5a5a5a5a5a5a5a5a5a5a5a5a5a5a") (b "sample_type_config")
           SAMPLE_TYPE_CONFIG_JSON
      ++ b "--" ++ b "5a5a5a5a5a5a5a5a5a5a5a5a5a5a5a5a" ++ b "--".
Proof.
  eexists. split; [vm_compute; reflexivity|].
  destruct (export_body_has_profile_then_sample_type_config Scenario.host "helloworld"
                     "tok123" Scenario.ingest 3 false tt 1000 2000
              (Scenario.surroundings_with Scenario.accepts_at_once) 0%nat _
              ltac:(vm_compute; reflexivity))
    as ((profile & libs & Hparent & Hbody) & _).
  injection Hparent as <- <-.
  etransitivity; [exact Hbody|]. vm_compute. reflexivity.
Defined.

(** ** The testable properties of the specification, on the fake transports *)

Example unavailable_twice_takes_three_attempts :
  length (Tenacity.attempts (Scenario.run Scenario.exporter Scenario.unavailable_twice))
  = 3%nat /\
  Tenacity.outcome (Scenario.run Scenario.exporter Scenario.unavailable_twice)
  = Some (Return (b "abc", [])).
Proof. split; vm_compute; reflexivity. Qed.

Example always_500_without_budget_takes_one_attempt :
  length (Tenacity.attempts
            (Scenario.run Scenario.exporter_without_budget Scenario.always_500))
  = 1%nat /\
  Tenacity.outcome (Scenario.run Scenario.exporter_without_budget Scenario.always_500)
  = Some (Raise (UploadFailed (FutureException TryAgain))).
Proof. split; vm_compute; reflexivity. Qed.

Example bad_request_fails_at_once :
  length (Tenacity.attempts (Scenario.run Scenario.exporter Scenario.bad_request))
  = 1%nat /\
  Tenacity.outcome (Scenario.run Scenario.exporter Scenario.bad_request)
  = Some (Raise (ExportError "Server returned 400, check your API key.")).
Proof. split; vm_compute; reflexivity. Qed.

Example not_found_fails_at_once :
  length (Tenacity.attempts (Scenario.run Scenario.exporter Scenario.not_found))
  = 1%nat /\
  Tenacity.outcome (Scenario.run Scenario.exporter Scenario.not_found)
  = Some (Raise (ExportError "Server returned 404, check your endpoint path.")).
Proof. split; vm_compute; reflexivity. Qed.

Example refused_past_budget_raises_upload_failed :
  Tenacity.outcome (Scenario.run Scenario.exporter Scenario.refused_past_budget)
  = Some (Raise (UploadFailed (FutureException (OSError "Connection refused")))).
Proof. vm_compute. reflexivity. Qed.

(** * Further properties *)

(** ** The retry driver, from the outcome back to the attempts *)

Section DriverOutcome.
Context {Req Env A : Type}.
Variable r : Tenacity.Retrying.
Variable fn : Env -> Req * result A.

(** A run that ended has a last attempt, and ended either with what that
    attempt did (no retry was asked for) or with [retry_error_cls] (a
    retry was asked for when [stop] held). *)
Lemma call_outcome_inv script : forall o,
  Tenacity.outcome (Tenacity.call r fn script) = Some o ->
  exists n a,
    Tenacity.attempts (Tenacity.call r fn script) !! n = Some a /\
    Tenacity.attempts (Tenacity.call r fn script) !! S n = None /\
    ((Tenacity.is_explicit_retry (Tenacity.recorded a)
      || Tenacity.retry r (Tenacity.recorded a) = false /\
      o = snd (fn (Tenacity.answer a)))
     \/
     (Tenacity.is_explicit_retry (Tenacity.recorded a)
      || Tenacity.retry r (Tenacity.recorded a) = true /\
      Tenacity.stop r (Tenacity.seconds_since_start a) = true /\
      o = Raise (Tenacity.retry_error_cls r (Tenacity.recorded a)))).
Proof.
  induction script as [|[env elapsed] rest IH]; intros o Ho; simpl in Ho.
  - discriminate.
  - simpl.
    destruct (Tenacity.is_explicit_retry (Tenacity.set_outcome (snd (fn env)))
              || Tenacity.retry r (Tenacity.set_outcome (snd (fn env)))) eqn:Hretry;
      simpl in Ho |- *.
    + destruct (Tenacity.stop r elapsed) eqn:Hstop; simpl in Ho |- *.
      * injection Ho as <-. eexists 0%nat, _. split; [reflexivity|].
        split; [reflexivity|]. right. simpl. auto.
      * destruct (IH o Ho) as (n & a & Hn & Hlast & Hcase).
        exists (S n), a. auto.
    + injection Ho as <-. eexists 0%nat, _. split; [reflexivity|].
      split; [reflexivity|]. left. simpl. auto.
Qed.

(** The driver never makes more attempts than the script has answers. *)
Lemma call_attempts_length script :
  (length (Tenacity.attempts (Tenacity.call r fn script)) <= length script)%nat.
Proof.
  induction script as [|[env elapsed] rest IH]; simpl; [lia|].
  destruct (negb _); [simpl; lia|].
  destruct (Tenacity.stop r elapsed); simpl; lia.
Qed.

End DriverOutcome.

(** ** One upload attempt, by cases *)

Lemma upload_once_cases self body headers params status :
  (200 <= status <= 299 /\
   snd (_upload_once self body headers params (Responds status)) = Return tt)
  \/ (500 <= status /\
      snd (_upload_once self body headers params (Responds status)) = Raise TryAgain)
  \/ ((status < 200 \/ 300 <= status < 500) /\
      exists msg,
        snd (_upload_once self body headers params (Responds status))
        = Raise (ExportError msg)).
Proof.
  unfold _upload_once. cbn [snd].
  destruct ((200 <=? status) && (status <? 300)) eqn:Hok.
  - apply andb_true_iff in Hok. left. split; [lia | reflexivity].
  - apply andb_false_iff in Hok.
    destruct (500 <=? status) eqn:H500.
    + apply Z.leb_le in H500. right. left. split; [lia | reflexivity].
    + apply Z.leb_gt in H500. right. right. split; [lia|].
      destruct (status =? 400); [eexists; reflexivity|].
      destruct (status =? 404); eexists; reflexivity.
Qed.

(** Every part opens with two dashes and the boundary. *)
Lemma part_opens boundary field payload :
  exists rest, part boundary field payload = b "--" ++ boundary ++ rest.
Proof. unfold part. eexists. reflexivity. Qed.

(** ** Export calls: requests and endings *)

Section ExportCalls.
Context {Events Profile Libs : Type}.
Variable lib : collaborators Events Profile Libs.
Variables (service_name0 token0 endpoint0 : string).
Variables (max_retry_delay0 : Z) (enable_code_provenance0 : bool).

Abbreviation self :=
  (fst (__init__ service_name0 token0 endpoint0 max_retry_delay0 enable_code_provenance0)).

(** X3: all the attempts of one export call hand the same request to the
    client: the URL, the two headers and the body, boundary included, are
    built once and resent as they are on every retry. *)
Theorem retries_resend_the_same_request events s e w i j a a' :
  Tenacity.attempts (export lib self events s e w) !! i = Some a ->
  Tenacity.attempts (export lib self events s e w) !! j = Some a' ->
  Tenacity.sent a = Tenacity.sent a'.
Proof.
  intros Hi Hj.
  destruct (export_attempt_request lib service_name0 token0 endpoint0 max_retry_delay0
              enable_code_provenance0 events s e w i a Hi)
    as (profile & libs & Hparent & _ & Hsent).
  destruct (export_attempt_request lib service_name0 token0 endpoint0 max_retry_delay0
              enable_code_provenance0 events s e w j a' Hj)
    as (profile' & libs' & Hparent' & _ & Hsent').
  rewrite Hparent in Hparent'. injection Hparent' as <- <-.
  rewrite Hsent, Hsent'. reflexivity.
Qed.

(** X4: every request of an export call is a POST with exactly the two
    headers [Authorization] and [Content-Type], and the boundary named in
    the [Content-Type] header is the one that opens and closes the body. *)
Theorem request_is_post_with_matching_boundary events s e w i a :
  Tenacity.attempts (export lib self events s e w) !! i = Some a ->
  method (Tenacity.sent a) = "POST"%string /\
  dom (headers (Tenacity.sent a))
  = ({["Authorization"%string; "Content-Type"%string]} : gset string) /\
  exists boundary middle,
    length boundary = 32%nat /\
    headers (Tenacity.sent a) !! "Content-Type"%string
    = Some (HBytes (b "multipart/form-data; boundary=" ++ boundary)) /\
    body (Tenacity.sent a)
    = b "--" ++ boundary ++ middle ++ b "--" ++ boundary ++ b "--".
Proof.
  intros Hi.
  destruct (export_attempt_request lib service_name0 token0 endpoint0 max_retry_delay0
              enable_code_provenance0 events s e w i a Hi)
    as (profile & libs & _ & _ & Hsent).
  rewrite Hsent. cbn [method headers body].
  split; [reflexivity|]. split.
  - rewrite !dom_insert_L, dom_empty_L. set_solver.
  - destruct (part_opens (hexlify (os_urandom (entropy w) 16)) (b "profile")
                (gzip_stream lib (mtime w) (SerializeToString lib profile)))
      as [rest Hrest].
    exists (hexlify (os_urandom (entropy w) 16)),
      (rest ++ part (hexlify (os_urandom (entropy w) 16)) (b "sample_type_config")
                 SAMPLE_TYPE_CONFIG_JSON).
    split; [rewrite hexlify_length, os_urandom_length; reflexivity|].
    split.
    + rewrite lookup_insert_ne by discriminate. apply lookup_insert_eq.
    + rewrite Hrest. rewrite <- !app_assoc. reflexivity.
Qed.

(** X5: an attempt is followed by another one only if its outcome was
    recorded strictly before [max_retry_delay] seconds had elapsed. *)
Theorem retried_attempts_are_within_budget events s e w i a :
  Tenacity.attempts (export lib self events s e w) !! i = Some a ->
  is_Some (Tenacity.attempts (export lib self events s e w) !! S i) ->
  (Tenacity.seconds_since_start a < inject_Z max_retry_delay0)%Q.
Proof.
  intros Hi Hnext.
  destruct (export_attempt_request lib service_name0 token0 endpoint0 max_retry_delay0
              enable_code_provenance0 events s e w i a Hi)
    as (profile & libs & Hparent & Hcall & _).
  destruct (export_eq lib service_name0 token0 endpoint0 max_retry_delay0
              enable_code_provenance0 events s e w profile libs Hparent) as [Hatt _].
  rewrite Hatt in Hnext.
  destruct (call_retried _ _ _ _ _ Hcall Hnext) as [_ Hstop].
  cbn in Hstop. unfold Tenacity.stop_after_delay in Hstop.
  apply Qnot_le_lt. intros Hle. apply Qle_bool_iff in Hle. congruence.
Qed.

(** X6: how an export call ends tells what its last attempt met.  It
    returns the parent's pair only after a 2xx response; it raises
    [ExportError] only after a response below 500 that is not 2xx; it
    raises [UploadFailed] only around the outcome of a last attempt that
    met a transport failure or a status of 500 or more, recorded when the
    budget was used up; another exception is the client's own, passed on.
    [TryAgain], [HTTPException] and [OSError] never leave the call. *)
Theorem export_ending_reflects_last_attempt events s e w pair o :
  pprof_export lib events s e = Return pair ->
  Tenacity.outcome (export lib self events s e w) = Some o ->
  exists n a,
    Tenacity.attempts (export lib self events s e w) !! n = Some a /\
    Tenacity.attempts (export lib self events s e w) !! S n = None /\
    match o with
    | Return v => v = pair /\ status_between 200 299 (Tenacity.answer a)
    | Raise (ExportError msg) =>
        exists status,
          Tenacity.answer a = Responds status /\
          (status < 200 \/ 300 <= status < 500)
    | Raise (UploadFailed last) =>
        last = Tenacity.recorded a /\
        (transport_failure (Tenacity.answer a) \/ status_from 500 (Tenacity.answer a)) /\
        (inject_Z max_retry_delay0 <= Tenacity.seconds_since_start a)%Q
    | Raise (OtherException cls msg) => Tenacity.answer a = Fails (ClientOther cls msg)
    | Raise _ => False
    end.
Proof.
  intros Hparent Hout. destruct pair as [profile libs].
  destruct (export_eq lib service_name0 token0 endpoint0 max_retry_delay0
              enable_code_provenance0 events s e w profile libs Hparent) as [Hatt Heq].
  rewrite Hatt. rewrite Heq in Hout. clear Hatt Heq.
  match type of Hout with
  | context [Tenacity.call ?r (_upload_once ?sf ?bd ?hd ?pr) ?sc] =>
      set (B := bd) in *; set (H := hd) in *; set (P := pr) in *;
      set (driver := Tenacity.call r (_upload_once sf B H P) sc) in *
  end.
  destruct (Tenacity.outcome driver) as [o'|] eqn:Hdriver; [|discriminate Hout].
  destruct (call_outcome_inv _ _ _ o' Hdriver) as (n & a & Hn & Hlast & Hcase).
  fold driver in Hn, Hlast.
  exists n, a. split; [exact Hn|]. split; [exact Hlast|].
  destruct (call_attempt_inv _ _ _ n a Hn) as (_ & Hrec & _ & _).
  pose proof (upload_retry_decision service_name0 token0 endpoint0 max_retry_delay0
                enable_code_provenance0 B H P (Tenacity.answer a)) as Hdecide.
  rewrite <- Hrec in Hdecide.
  clearbody driver. clearbody B H P.
  destruct Hcase as [[Hno Ho] | (Hyes & Hstop & Ho)].
  - assert (~ (transport_failure (Tenacity.answer a)
               \/ status_from 500 (Tenacity.answer a))) as Hnot.
    { intros Hx. apply Hdecide in Hx. congruence. }
    clear Hdecide Hrec. subst o'.
    destruct (Tenacity.answer a) as [[msg | msg | cls msg] | status].
    + exfalso. apply Hnot. left. exact I.
    + exfalso. apply Hnot. left. exact I.
    + cbn in Hout. injection Hout as <-. reflexivity.
    + destruct (upload_once_cases self B H P status)
        as [[Hok Hres] | [[H500 Hres] | [Hother [msg Hres]]]];
        rewrite Hres in Hout; injection Hout as <-.
      * split; [reflexivity | exact Hok].
      * exfalso. apply Hnot. right. exact H500.
      * exists status. split; [reflexivity | exact Hother].
  - subst o'. injection Hout as <-. cbn [Tenacity.retry_error_cls _retry_upload __init__ fst].
    split; [reflexivity|]. split; [apply Hdecide; exact Hyes|].
    cbn in Hstop. unfold Tenacity.stop_after_delay in Hstop.
    apply Qle_bool_iff. exact Hstop.
Qed.

(** X7: with a budget of zero seconds or less, and elapsed times that are
    not negative, an export call makes at most one attempt. *)
Theorem no_budget_means_one_attempt events s e w :
  max_retry_delay0 <= 0 ->
  Forall (fun answer => (0 <= snd answer)%Q) (transport w) ->
  (length (Tenacity.attempts (export lib self events s e w)) <= 1)%nat.
Proof.
  intros Hbudget Hclock.
  destruct (Tenacity.attempts (export lib self events s e w)) as [|a [|a' rest]] eqn:Hatts;
    [simpl; lia | simpl; lia |].
  exfalso.
  assert (Tenacity.attempts (export lib self events s e w) !! 0%nat = Some a) as H0
    by (rewrite Hatts; reflexivity).
  destruct (export_attempt_request lib service_name0 token0 endpoint0 max_retry_delay0
              enable_code_provenance0 events s e w 0%nat a H0)
    as (profile & libs & Hparent & Hcall & _).
  destruct (export_eq lib service_name0 token0 endpoint0 max_retry_delay0
              enable_code_provenance0 events s e w profile libs Hparent) as [Hsame _].
  assert (is_Some (Tenacity.attempts (export lib self events s e w) !! 1%nat)) as H1
    by (rewrite Hatts; eexists; reflexivity).
  rewrite Hsame in H1.
  destruct (call_retried _ _ _ _ _ Hcall H1) as [_ Hstop].
  destruct (call_attempt_inv _ _ _ _ _ Hcall) as (_ & _ & Hscript & _).
  rewrite Forall_lookup in Hclock. specialize (Hclock _ _ Hscript). cbn [snd] in Hclock.
  cbn [Tenacity.stop _retry_upload __init__ fst] in Hstop.
  unfold Tenacity.stop_after_delay in Hstop.
  assert (Qle_bool (inject_Z max_retry_delay0) (Tenacity.seconds_since_start a) = true)
    as Hyes; [|congruence].
  apply Qle_bool_iff. eapply Qle_trans; [|exact Hclock].
  unfold Qle. cbn. lia.
Qed.

(** X8: an attempt that meets an exception of the connection layer other
    than [HTTPException] and [OSError], or a response below 500 that is
    not 2xx (1xx, 3xx and all of 4xx), is the last one, and the export
    call raises that exception, or an [ExportError], at once. *)
Theorem unretryable_answer_ends_the_call events s e w pair i a :
  pprof_export lib events s e = Return pair ->
  Tenacity.attempts (export lib self events s e w) !! i = Some a ->
  match Tenacity.answer a with
  | Fails (ClientOther cls msg) =>
      Tenacity.attempts (export lib self events s e w) !! S i = None /\
      Tenacity.outcome (export lib self events s e w)
      = Some (Raise (OtherException cls msg))
  | Responds status =>
      status < 200 \/ 300 <= status < 500 ->
      Tenacity.attempts (export lib self events s e w) !! S i = None /\
      exists msg,
        Tenacity.outcome (export lib self events s e w) = Some (Raise (ExportError msg))
  | _ => True
  end.
Proof.
  intros Hparent Hi. destruct pair as [profile libs].
  destruct (export_eq lib service_name0 token0 endpoint0 max_retry_delay0
              enable_code_provenance0 events s e w profile libs Hparent) as [Hatt Heq].
  rewrite Hatt in Hi |- *. rewrite Heq. clear Hatt Heq.
  match goal with
  | |- context [Tenacity.call ?r (_upload_once ?sf ?bd ?hd ?pr) ?sc] =>
      set (B := bd) in *; set (H := hd) in *; set (P := pr) in *;
      set (driver := Tenacity.call r (_upload_once sf B H P) sc) in *
  end.
  destruct (call_attempt_inv _ _ _ i a Hi) as (_ & Hrec & _ & Hstep).
  fold driver in Hstep. clearbody driver. clearbody B H P.
  destruct (Tenacity.answer a) as [[msg | msg | cls msg] | status];
    [exact I | exact I | |].
  - rewrite Hrec in Hstep. cbn in Hstep.
    destruct Hstep as [Hnone Hraise]. rewrite Hraise. split; [exact Hnone | reflexivity].
  - intros Hrange.
    destruct (upload_once_cases self B H P status)
      as [[Hok _] | [[H500 _] | [_ [msg Hres]]]]; [lia | lia |].
    rewrite Hres in Hrec. cbn [Tenacity.set_outcome] in Hrec. rewrite Hrec in Hstep.
    cbn [_retry_upload __init__ fst Tenacity.retry] in Hstep.
    rewrite retry_decision_is_retryable in Hstep. cbn [is_retryable] in Hstep.
    cbn [__init__ fst] in Hres.
    destruct Hstep as [Hnone Hraise]. rewrite Hraise, Hres.
    split; [exact Hnone | exists msg; reflexivity].
Qed.

End ExportCalls.

(** ** The packager: boundaries and sizes *)

Import Notions.

Lemma hex_lower_inj_nat i j :
  (i < 16)%nat -> (j < 16)%nat ->
  hex_lower (N.of_nat i) = hex_lower (N.of_nat j) -> i = j.
Proof.
  intros Hi Hj.
  do 16 (destruct i as [|i];
         [do 16 (destruct j as [|j];
                 [intros H; first [reflexivity | discriminate H]|]); lia|]).
  lia.
Qed.

Lemma hex_lower_inj n m :
  (n < 16)%N -> (m < 16)%N -> hex_lower n = hex_lower m -> n = m.
Proof.
  intros Hn Hm H.
  rewrite <- (N2Nat.id n), <- (N2Nat.id m) in H.
  apply hex_lower_inj_nat in H; lia.
Qed.

Lemma byte_to_N_inj x y : Byte.to_N x = Byte.to_N y -> x = y.
Proof.
  intros H. pose proof (Byte.of_to_N x) as Hx. rewrite H, Byte.of_to_N in Hx.
  congruence.
Qed.

(** [hexlify] loses nothing: equal digit strings come from equal bytes. *)
Lemma hexlify_inj bs : forall bs', hexlify bs = hexlify bs' -> bs = bs'.
Proof.
  induction bs as [|x bs IH]; intros [|y bs'] H; simpl in H;
    [reflexivity | discriminate | discriminate |].
  injection H as Hhigh Hlow Hrest.
  pose proof (byte_to_N_bound x) as Hx. pose proof (byte_to_N_bound y) as Hy.
  apply hex_lower_inj in Hhigh;
    [|apply N.Div0.div_lt_upper_bound; lia | apply N.Div0.div_lt_upper_bound; lia].
  apply hex_lower_inj in Hlow; [|apply N.mod_lt; lia | apply N.mod_lt; lia].
  f_equal; [|apply IH; exact Hrest].
  apply byte_to_N_inj.
  rewrite (N.div_mod (Byte.to_N x) 16), (N.div_mod (Byte.to_N y) 16) by lia.
  congruence.
Qed.

(** X1: two calls of the packager return the same content type exactly
    when [os.urandom] gave them the same 16 bytes, whatever the fields:
    distinct random draws never share a boundary. *)
Theorem content_type_determined_by_random_bytes entropy entropy' data data' :
  fst <$> _encode_multipart_formdata entropy data
  = fst <$> _encode_multipart_formdata entropy' data'
  <-> os_urandom entropy 16 = os_urandom entropy' 16.
Proof.
  rewrite !encode_multipart_formdata_eq.
  set (random := os_urandom entropy 16). set (random' := os_urandom entropy' 16).
  change (Some (b "multipart/form-data; boundary=" ++ hexlify random)
          = Some (b "multipart/form-data; boundary=" ++ hexlify random')
          <-> random = random').
  split.
  - intros H. apply (inj Some) in H. apply app_inv_head in H.
    apply hexlify_inj. exact H.
  - intros ->. reflexivity.
Qed.

Lemma part_length boundary field payload :
  length (part boundary field payload)
  = (102 + length boundary + 2 * length field + length payload)%nat.
Proof. unfold part. rewrite !length_app. simpl. lia. Qed.

Lemma parts_length boundary (data : list (list byte * list byte)) :
  length boundary = 32%nat ->
  length (concat (List.map (fun item => part boundary (fst item) (snd item)) data))
  = sum_list_with
      (fun item => (part_overhead + 2 * length (fst item) + length (snd item))%nat) data.
Proof.
  intros Hb. induction data as [|item data IH]; [reflexivity|].
  cbn [List.map concat sum_list_with]. rewrite length_app, part_length, IH, Hb.
  unfold part_overhead. lia.
Qed.

(** X2: the packager's sizes.  The content type is 62 bytes long, and the
    body takes 134 bytes per part, plus twice the field name and the
    payload, plus 36 bytes for the closing delimiter; for an empty mapping
    the body is the 36 bytes of the closing delimiter alone. *)
Theorem multipart_sizes (entropy : nat -> byte) (data : list (list byte * list byte)) :
  exists content_type body,
    _encode_multipart_formdata entropy data = Some (content_type, body) /\
    length content_type = 62%nat /\
    length body
    = (sum_list_with
         (fun item => (part_overhead + 2 * length (fst item) + length (snd item))%nat)
         data + 36)%nat.
Proof.
  rewrite encode_multipart_formdata_eq. eexists _, _. split; [reflexivity|].
  assert (length (hexlify (os_urandom entropy 16)) = 32%nat) as Hb
    by (rewrite hexlify_length, os_urandom_length; reflexivity).
  split.
  - rewrite length_app, Hb. reflexivity.
  - unfold terminator. rewrite !length_app, parts_length, Hb by exact Hb.
    simpl. lia.
Qed.

(** ** The query string *)

Lemma append_inv_head (s t u : string) : s +:+ t = s +:+ u -> t = u.
Proof.
  induction s as [|c s IH]; [trivial|].
  intros H. rewrite !append_cons in H. injection H as H. auto.
Qed.

(** Two strings cut at the first occurrence of [c] agree piece by piece. *)
Lemma append_cut_at c (s s' t t' : string) :
  char_in c s = false -> char_in c s' = false ->
  s +:+ String c t = s' +:+ String c t' -> s = s' /\ t = t'.
Proof.
  revert s'. induction s as [|d s IH]; intros [|d' s'] Hs Hs' H.
  - rewrite !append_nil_l in H. injection H as H. auto.
  - rewrite append_nil_l, append_cons in H. injection H as Hc _.
    simpl in Hs'. rewrite Hc, Ascii.eqb_refl in Hs'. discriminate.
  - rewrite append_nil_l, append_cons in H. injection H as Hc _.
    simpl in Hs. rewrite <- Hc, Ascii.eqb_refl in Hs. discriminate.
  - rewrite !append_cons in H. injection H as Hd H.
    simpl in Hs, Hs'. apply orb_false_iff in Hs as [_ Hs], Hs' as [_ Hs'].
    destruct (IH s' Hs Hs' H) as [-> ->]. subst d'. auto.
Qed.

Lemma str_int_inj n m : str_int n = str_int m -> n = m.
Proof.
  intros H. pose proof (int_of_str_str_int n) as Hn.
  rewrite H, int_of_str_str_int in Hn. congruence.
Qed.

Lemma str_int_without c n : char_in c "-0123456789" = false -> char_in c (str_int n) = false.
Proof.
  intros Hc. destruct (char_in c (str_int n)) eqn:Hin; [|reflexivity].
  apply str_int_chars in Hin. congruence.
Qed.

(** The query string of an export call, spelled out. *)
Lemma urlencode_export_params name start_time_ns end_time_ns :
  Urllib.urlencode
    [ ("name"%string, Str name); ("spyName"%string, Str "ddtrace");
      ("from"%string, Int start_time_ns); ("until"%string, Int end_time_ns) ]
  = "name=" +:+ Urllib.quote_plus name +:+ "&spyName=ddtrace&from="
    +:+ str_int start_time_ns +:+ "&until=" +:+ str_int end_time_ns.
Proof.
  unfold Urllib.urlencode. cbn [List.map fst snd str join].
  rewrite !quote_plus_str_int.
  change (Urllib.quote_plus "name") with "name"%string.
  change (Urllib.quote_plus "spyName") with "spyName"%string.
  change (Urllib.quote_plus "ddtrace") with "ddtrace"%string.
  change (Urllib.quote_plus "from") with "from"%string.
  change (Urllib.quote_plus "until") with "until"%string.
  rewrite !append_assoc. reflexivity.
Qed.

Lemma count_char_app c (s t : string) :
  count_char c (s +:+ t) = (count_char c s + count_char c t)%nat.
Proof.
  induction s as [|d s IH]; [reflexivity|].
  rewrite append_cons. simpl. rewrite IH. lia.
Qed.

Lemma count_char_absent c s : char_in c s = false -> count_char c s = 0%nat.
Proof.
  induction s as [|d s IH]; [reflexivity|].
  simpl. intros H. apply orb_false_iff in H as [Hd Hs].
  rewrite Hd, IH by exact Hs. reflexivity.
Qed.

Lemma hex_upper_safe n : char_in (hex_upper n) Urllib.ALWAYS_SAFE = true.
Proof.
  unfold hex_upper. generalize (N.to_nat n). intros m.
  do 16 (destruct m as [|m]; [reflexivity|]). reflexivity.
Qed.

Lemma char_in_false_ne c d s : char_in c s = false -> char_in d s = true -> c <> d.
Proof. intros Hc Hd ->. congruence. Qed.

(** A character that is neither unreserved, nor [safe], nor the percent
    sign does not occur in a quoted string. *)
Lemma quote_without c safe s :
  char_in c (Urllib.ALWAYS_SAFE +:+ safe) = false -> c <> "%"%char ->
  char_in c (Urllib.quote safe s) = false.
Proof.
  intros Hc Hpercent. induction s as [|d s IH]; [reflexivity|].
  simpl. rewrite char_in_app, IH, orb_false_r.
  unfold Urllib.quoter. destruct (char_in d (Urllib.ALWAYS_SAFE +:+ safe)) eqn:Hd.
  - simpl. rewrite orb_false_r. apply Ascii.eqb_neq.
    exact (char_in_false_ne _ _ _ Hc Hd).
  - unfold Urllib.percent. simpl. rewrite orb_false_r.
    rewrite char_in_app in Hc. apply orb_false_iff in Hc as [Hsafe _].
    apply orb_false_iff. split; [apply Ascii.eqb_neq; exact Hpercent|].
    apply orb_false_iff.
    split; apply Ascii.eqb_neq;
      exact (char_in_false_ne _ _ _ Hsafe (hex_upper_safe _)).
Qed.

Lemma replace_char_without c old new s :
  c <> old -> char_in c new = false -> char_in c s = false ->
  char_in c (replace_char old new s) = false.
Proof.
  intros Hold Hnew. induction s as [|d s IH]; [reflexivity|].
  simpl. intros H. apply orb_false_iff in H as [Hd Hs].
  destruct (Ascii.eqb d old).
  - rewrite char_in_app, Hnew, IH by exact Hs. reflexivity.
  - simpl. rewrite Hd, IH by exact Hs. reflexivity.
Qed.

(** [quote_plus] lets through only unreserved characters, [%] and [+]. *)
Lemma quote_plus_without c s :
  char_in c (Urllib.ALWAYS_SAFE +:+ " %+") = false ->
  char_in c (Urllib.quote_plus s) = false.
Proof.
  intros Hc. rewrite char_in_app in Hc. apply orb_false_iff in Hc as [Hsafe Hrest].
  simpl in Hrest. rewrite orb_false_r in Hrest.
  apply orb_false_iff in Hrest as [Hspace Hrest].
  apply orb_false_iff in Hrest as [Hpercent Hplus].
  apply Ascii.eqb_neq in Hspace, Hpercent, Hplus.
  unfold Urllib.quote_plus. destruct (char_in " " s).
  - apply replace_char_without; [exact Hspace | |].
    + simpl. rewrite orb_false_r. apply Ascii.eqb_neq. exact Hplus.
    + apply quote_without; [|exact Hpercent].
      rewrite char_in_app, Hsafe. simpl. rewrite orb_false_r.
      apply Ascii.eqb_neq. exact Hspace.
  - apply quote_without; [|exact Hpercent].
    rewrite char_in_app, Hsafe. reflexivity.
Qed.

Section Urls.
Context {Events Profile Libs : Type}.
Variable lib : collaborators Events Profile Libs.
Variables (service_name0 token0 endpoint0 : string).
Variables (max_retry_delay0 : Z) (enable_code_provenance0 : bool).

Abbreviation self :=
  (fst (__init__ service_name0 token0 endpoint0 max_retry_delay0 enable_code_provenance0)).

Lemma export_attempt_url events s e w i a :
  Tenacity.attempts (export lib self events s e w) !! i = Some a ->
  url (Tenacity.sent a)
  = endpoint0 +:+ "?" +:+
    ("name=" +:+ Urllib.quote_plus service_name0 +:+ "&spyName=ddtrace&from="
     +:+ str_int s +:+ "&until=" +:+ str_int e).
Proof.
  intros Hi.
  destruct (export_attempt_request lib service_name0 token0 endpoint0 max_retry_delay0
              enable_code_provenance0 events s e w i a Hi)
    as (profile & libs & _ & _ & Hsent).
  rewrite Hsent. cbn [url]. unfold _assemble_url. cbn [endpoint __init__ fst].
  rewrite urlencode_export_params. reflexivity.
Qed.

(** X10: whatever the service name, the query string of a request has
    exactly the three separators [&] and the four signs [=] of its four
    parameters: a service name cannot add, split or rename a parameter. *)
Theorem service_name_cannot_forge_parameters events s e w i a :
  Tenacity.attempts (export lib self events s e w) !! i = Some a ->
  exists query,
    url (Tenacity.sent a) = endpoint0 +:+ "?" +:+ query /\
    count_char "&" query = 3%nat /\ count_char "=" query = 4%nat /\
    count_char "#" query = 0%nat /\ count_char "?" query = 0%nat.
Proof.
  intros Hi. eexists. split; [apply (export_attempt_url events s e w i a Hi)|].
  rewrite !count_char_app.
  rewrite !(count_char_absent _ (Urllib.quote_plus service_name0))
    by (apply quote_plus_without; reflexivity).
  rewrite !(count_char_absent _ (str_int _)) by (apply str_int_without; reflexivity).
  repeat split.
Qed.

(** X11: for one exporter, the upload URL determines the time range:
    requests of export calls with different start or end times never
    have the same URL. *)
Theorem url_determines_time_range events s e w i a events' s' e' w' j a' :
  Tenacity.attempts (export lib self events s e w) !! i = Some a ->
  Tenacity.attempts (export lib self events' s' e' w') !! j = Some a' ->
  url (Tenacity.sent a) = url (Tenacity.sent a') ->
  s = s' /\ e = e'.
Proof.
  intros Hi Hj Hurl.
  rewrite (export_attempt_url events s e w i a Hi),
          (export_attempt_url events' s' e' w' j a' Hj) in Hurl.
  apply (append_inv_head endpoint0), (append_inv_head "?"), (append_inv_head "name="),
    (append_inv_head (Urllib.quote_plus service_name0)),
    (append_inv_head "&spyName=ddtrace&from=") in Hurl.
  change ("&until=" +:+ str_int e) with (String "&" ("until=" +:+ str_int e)) in Hurl.
  change ("&until=" +:+ str_int e') with (String "&" ("until=" +:+ str_int e')) in Hurl.
  apply append_cut_at in Hurl as [Hs He];
    [|apply str_int_without; reflexivity | apply str_int_without; reflexivity].
  apply append_inv_head in He.
  split; apply str_int_inj; assumption.
Qed.

(** X12: a service name made of unreserved characters (letters, digits,
    [_], [.], [-], [~]) appears in the URL as it is. *)
Theorem unreserved_service_name_is_sent_verbatim events s e w i a :
  (forall c, char_in c service_name0 = true -> char_in c Urllib.ALWAYS_SAFE = true) ->
  Tenacity.attempts (export lib self events s e w) !! i = Some a ->
  url (Tenacity.sent a)
  = endpoint0 +:+ "?name=" +:+ service_name0 +:+ "&spyName=ddtrace&from="
    +:+ str_int s +:+ "&until=" +:+ str_int e.
Proof.
  intros Hsafe Hi. rewrite (export_attempt_url events s e w i a Hi).
  assert (Urllib.quote_plus service_name0 = service_name0) as ->.
  { unfold Urllib.quote_plus.
    destruct (char_in " " service_name0) eqn:Hspace.
    - apply Hsafe in Hspace. discriminate.
    - apply quote_all_safe. intros c Hc. rewrite char_in_app, (Hsafe c Hc). reflexivity. }
  change ("?" +:+ ?x) with (String "?" x).
  reflexivity.
Qed.

End Urls.

(** ** The installer, applied again *)

(** X13: the installer changes no environment variable other than
    [DD_PROFILING_MEMORY_ENABLED]; it sets that one to [False] when memory
    profiling is disabled, and leaves the whole environment as it was
    when memory profiling is enabled. *)
Theorem installer_touches_one_variable {Instance : Type}
    (service_name0 token0 endpoint0 : string) (enable_memory_profiling : bool)
    (p : process Instance) :
  (forall key,
     key <> "DD_PROFILING_MEMORY_ENABLED"%string ->
     environ (patch_ddtrace_to_pyroscope service_name0 token0 endpoint0
                enable_memory_profiling p) !! key
     = environ p !! key) /\
  (enable_memory_profiling = false ->
   environ (patch_ddtrace_to_pyroscope service_name0 token0 endpoint0
              enable_memory_profiling p) !! "DD_PROFILING_MEMORY_ENABLED"%string
   = Some "False"%string) /\
  (enable_memory_profiling = true ->
   environ (patch_ddtrace_to_pyroscope service_name0 token0 endpoint0
              enable_memory_profiling p)
   = environ p).
Proof.
  unfold patch_ddtrace_to_pyroscope. cbn [environ].
  split; [|split].
  - intros key Hkey. destruct enable_memory_profiling; cbn [negb]; [reflexivity|].
    apply lookup_insert_ne. congruence.
  - intros ->. apply lookup_insert_eq.
  - intros ->. reflexivity.
Qed.

(** X14: installing twice.  The exporter factory is the one of the last
    installation; installing again with the same arguments changes
    nothing; and once an installation has disabled memory profiling, a
    later one that enables it does not take [False] back. *)
Theorem installer_applied_again {Instance : Type}
    (name1 token1 endpoint1 name2 token2 endpoint2 : string) (memory1 memory2 : bool)
    (p : process Instance) :
  _build_default_exporters
    (patch_ddtrace_to_pyroscope name2 token2 endpoint2 memory2
       (patch_ddtrace_to_pyroscope name1 token1 endpoint1 memory1 p))
  = _build_default_exporters (patch_ddtrace_to_pyroscope name2 token2 endpoint2 memory2 p)
  /\
  patch_ddtrace_to_pyroscope name1 token1 endpoint1 memory1
    (patch_ddtrace_to_pyroscope name1 token1 endpoint1 memory1 p)
  = patch_ddtrace_to_pyroscope name1 token1 endpoint1 memory1 p
  /\
  (memory1 = false ->
   environ (patch_ddtrace_to_pyroscope name2 token2 endpoint2 memory2
              (patch_ddtrace_to_pyroscope name1 token1 endpoint1 memory1 p))
   !! "DD_PROFILING_MEMORY_ENABLED"%string
   = Some "False"%string).
Proof.
  unfold patch_ddtrace_to_pyroscope. cbn [environ _build_default_exporters].
  split; [reflexivity|]. split.
  - destruct memory1; cbn [negb]; [reflexivity|].
    rewrite insert_insert_eq. reflexivity.
  - intros ->. cbn [negb]. destruct memory2; cbn [negb]; apply lookup_insert_eq.
Qed.

(** ** The configuration read from the environment *)

Lemma ascii_eqb_N c d : Ascii.eqb c d = (N_of_ascii c =? N_of_ascii d)%N.
Proof.
  destruct (Ascii.eqb_spec c d) as [-> | Hne].
  - symmetry. apply N.eqb_refl.
  - symmetry. apply N.eqb_neq. intros H. apply Hne.
    rewrite <- (ascii_N_embedding c), <- (ascii_N_embedding d), H. reflexivity.
Qed.

(** Lowering a character and comparing it with one that is not an upper
    case letter is comparing up to case. *)
Lemma lower_char_eqb c d :
  is_upper d = false -> Ascii.eqb (Config.lower_char c) d = same_letter c d.
Proof.
  unfold Config.lower_char, same_letter, is_upper. intros Hd. rewrite Hd.
  pose proof (N_ascii_bounded c) as Hc.
  destruct ((65 <=? N_of_ascii c)%N && (N_of_ascii c <=? 90)%N) eqn:Hup.
  - assert (65 <= N_of_ascii c <= 90)%N as Hrange
      by (apply andb_true_iff in Hup as [Hlow Hhigh];
          apply N.leb_le in Hlow, Hhigh; lia).
    rewrite !ascii_eqb_N, N_ascii_embedding by lia.
    assert ((N_of_ascii c =? N_of_ascii d)%N = false) as ->.
    { apply N.eqb_neq. intros Heq. rewrite Heq in Hup. congruence. }
    cbn [andb orb]. rewrite orb_false_r. reflexivity.
  - cbn [andb orb]. rewrite !orb_false_r. reflexivity.
Qed.

Lemma lower_eqb_caseless v : forall w,
  (forall c, char_in c w = true -> is_upper c = false) ->
  String.eqb (Config.lower v) w = caseless_eqb v w.
Proof.
  induction v as [|c v IH]; intros [|d w] Hw; try reflexivity.
  cbn [Config.lower String.eqb caseless_eqb].
  rewrite lower_char_eqb by (apply Hw; simpl; rewrite Ascii.eqb_refl; reflexivity).
  rewrite <- IH by (intros x Hx; apply Hw; simpl; rewrite Hx; apply orb_true_r).
  destruct (same_letter c d); reflexivity.
Qed.

Lemma no_upper_in_word w :
  forallb (fun c => negb (is_upper c)) (list_ascii_of_string w) = true ->
  forall c, char_in c w = true -> is_upper c = false.
Proof.
  induction w as [|d w IH]; intros Hall c Hc; simpl in Hc; [discriminate|].
  simpl in Hall. apply andb_true_iff in Hall as [Hd Hall].
  apply orb_true_iff in Hc as [Hc | Hc].
  - apply Ascii.eqb_eq in Hc. subst c. apply negb_true_iff. exact Hd.
  - apply IH; assumption.
Qed.

Lemma get_env_bool_eq environ key default :
  Config._get_env_bool environ key default
  = match environ !! key with
    | Some value => says_yes value
    | None => default
    end.
Proof.
  unfold Config._get_env_bool, says_yes.
  destruct (environ !! key) as [value|]; [|reflexivity].
  cbn [existsb].
  rewrite !lower_eqb_caseless by (apply no_upper_in_word; reflexivity).
  rewrite orb_false_r, orb_assoc. reflexivity.
Qed.

(** X15: a boolean variable of the environment.  When it is not set the
    default holds; when it is set, the result is true exactly for the
    words [true], [1] and [yes] in any letter case, and false for every
    other value, whatever the default. *)
Theorem env_bool_accepts_three_words_in_any_case environ key default :
  Config._get_env_bool environ key default
  = match environ !! key with
    | Some value =>
        caseless_eqb value "true" || caseless_eqb value "1" || caseless_eqb value "yes"
    | None => default
    end.
Proof.
  unfold Config._get_env_bool.
  destruct (environ !! key) as [value|]; [|reflexivity].
  cbn [existsb].
  rewrite !lower_eqb_caseless by (apply no_upper_in_word; reflexivity).
  rewrite orb_false_r, orb_assoc. reflexivity.
Qed.

(** X16: [Config()] fails only over [OTLP_EXPORTER_TYPE]: it raises the
    [ValueError] of the enumeration when the variable is set to anything
    but [grpc] or [http] in some letter case, and otherwise succeeds,
    with [GRPC] as the type when the variable is not set. *)
Theorem config_fails_only_on_exporter_type environ :
  match environ !! "OTLP_EXPORTER_TYPE"%string with
  | None =>
      exists config, Config.__init__ environ = inr config /\
                     Config.otlp_exporter_type config = Config.GRPC
  | Some value =>
      if caseless_eqb value "grpc" then
        exists config, Config.__init__ environ = inr config /\
                       Config.otlp_exporter_type config = Config.GRPC
      else if caseless_eqb value "http" then
        exists config, Config.__init__ environ = inr config /\
                       Config.otlp_exporter_type config = Config.HTTP
      else exists err, Config.__init__ environ = inl err
  end.
Proof.
  unfold Config.__init__, Config.getenv, Config.ExporterType_of_value.
  destruct (environ !! "OTLP_EXPORTER_TYPE"%string) as [value|].
  - cbn [Config.ExporterType_value].
    rewrite !lower_eqb_caseless by (apply no_upper_in_word; reflexivity).
    destruct (caseless_eqb value "grpc"); [eexists; split; reflexivity|].
    destruct (caseless_eqb value "http"); [eexists; split; reflexivity|].
    eexists. reflexivity.
  - eexists. split; reflexivity.
Qed.

(** ** From the environment to the installed exporter *)

(** X17: starting the profiling service on a configuration read from the
    environment.  If [ENABLE_PROFILING] is set to something other than a
    yes-word, nothing happens: no installation, no profiler.  Otherwise one
    profiler is started after the installation, and the exporter factory
    yields a single exporter whose token, service name and endpoint are
    the values of [TOKEN], [SERVICE_NAME] and [PROFILING_ENDPOINT], or
    [todo], [helloworld] and [http://localhost:4040] when these are not
    set; memory profiling is switched off in the environment exactly when
    [ENABLE_MEMORY_PROFILING] is set to something other than a yes-word. *)
Theorem profiling_service_installs_configured_exporter {Instance : Type}
    (environ0 : gmap string string) (config : Config.Config)
    (rt : Profiling.runtime Instance) (instance : Instance) :
  Config.__init__ environ0 = inr config ->
  environ (Profiling.proc rt) = environ0 ->
  let rt' := Profiling.start (Profiling.__init__ config) rt in
  match environ0 !! "ENABLE_PROFILING"%string with
  | Some value => says_yes value
  | None => true
  end = false /\ rt' = rt
  \/
  match environ0 !! "ENABLE_PROFILING"%string with
  | Some value => says_yes value
  | None => true
  end = true /\
  Profiling.profilers_started rt' = S (Profiling.profilers_started rt) /\
  (exists exporter,
     _build_default_exporters (Profiling.proc rt') instance = [Pyroscope exporter] /\
     token exporter = Config.getenv environ0 "TOKEN" "todo" /\
     service_name exporter = Config.getenv environ0 "SERVICE_NAME" "helloworld" /\
     endpoint exporter
     = Config.getenv environ0 "PROFILING_ENDPOINT" "http://localhost:4040") /\
  environ (Profiling.proc rt')
  = match environ0 !! "ENABLE_MEMORY_PROFILING"%string with
    | Some value =>
        if says_yes value then environ0
        else <["DD_PROFILING_MEMORY_ENABLED"%string := "False"%string]> environ0
    | None => environ0
    end.
Proof.
  intros Hconfig Henv. cbv zeta.
  unfold Config.__init__ in Hconfig.
  destruct (Config.ExporterType_of_value _) as [err | exporter_type]; [discriminate|].
  injection Hconfig as <-.
  unfold Profiling.start, Profiling.__init__.
  cbn [Profiling.enabled Profiling.token Profiling.service_name Profiling.endpoint
       Profiling.enable_memory_profiling Config.enable_profiling Config.token
       Config.service_name Config.profiling_endpoint Config.enable_memory_profiling].
  rewrite !get_env_bool_eq.
  destruct (match environ0 !! "ENABLE_PROFILING"%string with
            | Some value => says_yes value
            | None => true
            end) eqn:Henabled; cbn [negb].
  - right. split; [reflexivity|]. split; [reflexivity|]. split.
    + eexists. split; [reflexivity|]. repeat split.
    + cbn [Profiling.proc environ patch_ddtrace_to_pyroscope]. rewrite Henv.
      destruct (environ0 !! "ENABLE_MEMORY_PROFILING"%string) as [value|];
        [destruct (says_yes value)|]; reflexivity.
  - left. split; reflexivity.
Qed.

(** X18: with a configuration read from the environment, the exporter that
    the profiling service installs logs the missing-token warning exactly
    when [TOKEN] is set to the empty string; when [TOKEN] is not set the
    token is [todo] and the exporter logs its usual line. *)
Theorem token_warning_only_for_empty_token (environ0 : gmap string string)
    (config : Config.Config) :
  Config.__init__ environ0 = inr config ->
  level (snd (__init__ (Profiling.service_name (Profiling.__init__ config))
                (Profiling.token (Profiling.__init__ config))
                (Profiling.endpoint (Profiling.__init__ config))
                DEFAULT_MAX_RETRY_DELAY DEFAULT_ENABLE_CODE_PROVENANCE))
  = WARNING
  <-> environ0 !! "TOKEN"%string = Some EmptyString.
Proof.
  intros Hconfig. unfold Config.__init__ in Hconfig.
  destruct (Config.ExporterType_of_value _) as [err | exporter_type]; [discriminate|].
  injection Hconfig as <-.
  unfold __init__, Profiling.__init__, Config.getenv.
  cbn [snd Profiling.token Config.token].
  destruct (environ0 !! "TOKEN"%string) as [value|].
  - destruct (String.eqb_spec value EmptyString) as [-> | Hne]; cbn [level].
    + split; reflexivity.
    + split; [discriminate | intros H; injection H as H; contradiction].
  - cbn [String.eqb level]. split; discriminate.
Qed.

(** ** Starting and stopping the services *)

Lemma start_all_app {W} (before after : list (Main.service W)) : forall w w1 log1,
  Main.start_all before w = (None, w1, log1) ->
  Main.start_all (before ++ after) w
  = (let '(ended, w2, log2) := Main.start_all after w1 in (ended, w2, log1 ++ log2)).
Proof.
  induction before as [|service before IH]; intros w w1 log1 Hbefore; simpl in Hbefore.
  - injection Hbefore as <- <-. simpl. destruct (Main.start_all after w) as [[? ?] ?].
    reflexivity.
  - simpl. destruct (Main.start service w) as [[|e|] w'];
      [|discriminate|discriminate].
    destruct (Main.start_all before w') as [[ended w''] log] eqn:Hrest.
    injection Hbefore as -> -> <-.
    rewrite (IH w' w1 log Hrest).
    destruct (Main.start_all after w1) as [[? ?] ?]. reflexivity.
Qed.

(** X19: when a service fails to start, [main] exits with status 1 right
    there: the failure is the last line logged, the services after the
    failing one are never started, and those started before it are not
    stopped. *)
Theorem failed_start_exits_at_once {W} (before after : list (Main.service W))
    (bad : Main.service W) (interrupted : bool) (w w1 w2 : W)
    (log1 : list Main.log_record) (e : string) :
  Main.start_all before w = (None, w1, log1) ->
  Main.start bad w1 = (Main.Fails e, w2) ->
  Main.main (before ++ bad :: after) interrupted w
  = (Main.Exit 1, w2,
     log1 ++ [ {| Main.level := Main.ERROR;
                  Main.message := "[" +:+ Main.name bad +:+ "] failed to start: " +:+ e |} ]).
Proof.
  intros Hbefore Hbad. unfold Main.main.
  rewrite (start_all_app before (bad :: after) w w1 log1 Hbefore).
  simpl. rewrite Hbad. reflexivity.
Qed.


(** ** The further properties on the scenarios *)

Lemma retries_resend_the_same_request_witness :
  exists a a',
    Tenacity.attempts (Scenario.run Scenario.exporter Scenario.unavailable_twice) !! 0%nat
    = Some a /\
    Tenacity.attempts (Scenario.run Scenario.exporter Scenario.unavailable_twice) !! 2%nat
    = Some a' /\
    Tenacity.sent a = Tenacity.sent a'.
Proof.
  eexists _, _. split; [vm_compute; reflexivity|]. split; [vm_compute; reflexivity|].
  apply (retries_resend_the_same_request Scenario.host "helloworld" "tok123"
           Scenario.ingest 3 false tt 1000 2000
           (Scenario.surroundings_with Scenario.unavailable_twice) 0%nat 2%nat);
    vm_compute; reflexivity.
Defined.

Lemma request_is_post_with_matching_boundary_witness :
  exists a,
    Tenacity.attempts (Scenario.run Scenario.exporter Scenario.accepts_at_once) !! 0%nat
    = Some a /\
    method (Tenacity.sent a) = "POST"%string /\
    dom (headers (Tenacity.sent a))
    = ({["Authorization"%string; "Content-Type"%string]} : gset string).
Proof.
  eexists. split; [vm_compute; reflexivity|].
  destruct (request_is_post_with_matching_boundary Scenario.host "helloworld" "tok123"
              Scenario.ingest 3 false tt 1000 2000
              (Scenario.surroundings_with Scenario.accepts_at_once) 0%nat _
              ltac:(vm_compute; reflexivity)) as (Hmethod & Hdom & _).
  split; assumption.
Defined.

Lemma retried_attempts_are_within_budget_witness :
  exists a,
    Tenacity.attempts (Scenario.run Scenario.exporter Scenario.unavailable_twice) !! 0%nat
    = Some a /\
    (Tenacity.seconds_since_start a < inject_Z 3)%Q.
Proof.
  eexists. split; [vm_compute; reflexivity|].
  apply (retried_attempts_are_within_budget Scenario.host "helloworld" "tok123"
           Scenario.ingest 3 false tt 1000 2000
           (Scenario.surroundings_with Scenario.unavailable_twice) 0%nat).
  - vm_compute. reflexivity.
  - vm_compute. eexists. reflexivity.
Defined.

Lemma export_ending_reflects_last_attempt_witness :
  exists n a,
    Tenacity.attempts (Scenario.run Scenario.exporter Scenario.unavailable_twice) !! n
    = Some a /\
    Tenacity.attempts (Scenario.run Scenario.exporter Scenario.unavailable_twice) !! S n
    = None /\
    status_between 200 299 (Tenacity.answer a).
Proof.
  destruct (export_ending_reflects_last_attempt Scenario.host "helloworld" "tok123"
              Scenario.ingest 3 false tt 1000 2000
              (Scenario.surroundings_with Scenario.unavailable_twice)
              (b "abc", []) (Return (b "abc", []))
              ltac:(reflexivity) ltac:(vm_compute; reflexivity))
    as (n & a & Hn & Hlast & _ & Hok).
  exists n, a. split; [exact Hn|]. split; [exact Hlast | exact Hok].
Defined.

Lemma no_budget_means_one_attempt_witness :
  (length (Tenacity.attempts
             (Scenario.run Scenario.exporter_without_budget Scenario.always_500))
   <= 1)%nat.
Proof.
  apply (no_budget_means_one_attempt Scenario.host "helloworld" "tok123"
           Scenario.ingest 0 false tt 1000 2000
           (Scenario.surroundings_with Scenario.always_500)).
  - lia.
  - repeat constructor; vm_compute; discriminate.
Defined.

Lemma unretryable_answer_ends_the_call_witness :
  Tenacity.attempts (Scenario.run Scenario.exporter Scenario.unauthorized) !! 1%nat = None /\
  exists msg,
    Tenacity.outcome (Scenario.run Scenario.exporter Scenario.unauthorized)
    = Some (Raise (ExportError msg)).
Proof.
  assert (exists a,
            Tenacity.attempts (Scenario.run Scenario.exporter Scenario.unauthorized) !! 0%nat
            = Some a /\ Tenacity.answer a = Responds 401) as (a & Hfirst & Hanswer).
  { eexists. split; [vm_compute; reflexivity | reflexivity]. }
  pose proof (unretryable_answer_ends_the_call Scenario.host "helloworld" "tok123"
                Scenario.ingest 3 false tt 1000 2000
                (Scenario.surroundings_with Scenario.unauthorized)
                (b "abc", []) 0%nat a ltac:(reflexivity) Hfirst) as Hends.
  rewrite Hanswer in Hends. apply Hends. lia.
Defined.

Lemma service_name_cannot_forge_parameters_witness :
  exists a query,
    Tenacity.attempts (Scenario.run Scenario.exporter Scenario.accepts_at_once) !! 0%nat
    = Some a /\
    url (Tenacity.sent a) = Scenario.ingest +:+ "?" +:+ query /\
    count_char "&" query = 3%nat /\ count_char "=" query = 4%nat.
Proof.
  assert (exists a,
            Tenacity.attempts (Scenario.run Scenario.exporter Scenario.accepts_at_once) !! 0%nat
            = Some a) as (a & Hfirst).
  { eexists. vm_compute. reflexivity. }
  destruct (service_name_cannot_forge_parameters Scenario.host "helloworld" "tok123"
              Scenario.ingest 3 false tt 1000 2000
              (Scenario.surroundings_with Scenario.accepts_at_once) 0%nat a Hfirst)
    as (query & Hurl & Hamp & Heq & _).
  exists a, query. auto.
Defined.

Lemma url_determines_time_range_witness :
  exists a a',
    Tenacity.attempts (Scenario.run Scenario.exporter Scenario.accepts_at_once) !! 0%nat
    = Some a /\
    Tenacity.attempts (Scenario.run Scenario.exporter Scenario.unavailable_twice) !! 1%nat
    = Some a' /\
    url (Tenacity.sent a) = url (Tenacity.sent a') /\
    1000 = 1000 /\ 2000 = 2000.
Proof.
  eexists _, _. split; [vm_compute; reflexivity|]. split; [vm_compute; reflexivity|].
  split; [reflexivity|].
  apply (url_determines_time_range Scenario.host "helloworld" "tok123"
           Scenario.ingest 3 false
           tt 1000 2000 (Scenario.surroundings_with Scenario.accepts_at_once) 0%nat _
           tt 1000 2000 (Scenario.surroundings_with Scenario.unavailable_twice) 1%nat _
           ltac:(vm_compute; reflexivity) ltac:(vm_compute; reflexivity)
           ltac:(reflexivity)).
Defined.

Lemma unreserved_service_name_is_sent_verbatim_witness :
  exists a,
    Tenacity.attempts (Scenario.run Scenario.exporter Scenario.accepts_at_once) !! 0%nat
    = Some a /\
    url (Tenacity.sent a)
    = Scenario.ingest +:+ "?name=" +:+ "helloworld" +:+ "&spyName=ddtrace&from="
      +:+ str_int 1000 +:+ "&until=" +:+ str_int 2000.
Proof.
  eexists. split; [vm_compute; reflexivity|].
  apply (unreserved_service_name_is_sent_verbatim Scenario.host "helloworld" "tok123"
           Scenario.ingest 3 false tt 1000 2000
           (Scenario.surroundings_with Scenario.accepts_at_once) 0%nat).
  - intros c Hc. simpl in Hc.
    repeat (apply orb_true_iff in Hc as [Hc | Hc];
            [apply Ascii.eqb_eq in Hc; subst c; reflexivity|]).
    discriminate.
  - vm_compute. reflexivity.
Defined.

Lemma installer_touches_one_variable_witness :
  environ (patch_ddtrace_to_pyroscope "checkout" "s3cr3t" "http://pyroscope:4040" false
             (Profiling.proc (Sample.fresh Sample.staging))) !! "TOKEN"%string
  = Some "s3cr3t"%string /\
  environ (patch_ddtrace_to_pyroscope "checkout" "s3cr3t" "http://pyroscope:4040" false
             (Profiling.proc (Sample.fresh Sample.staging)))
  !! "DD_PROFILING_MEMORY_ENABLED"%string
  = Some "False"%string.
Proof.
  destruct (installer_touches_one_variable "checkout" "s3cr3t" "http://pyroscope:4040"
              false (Profiling.proc (Sample.fresh Sample.staging)))
    as (Hframe & Hoff & _).
  split.
  - rewrite Hframe by discriminate. vm_compute. reflexivity.
  - apply Hoff. reflexivity.
Defined.

Lemma installer_applied_again_witness :
  environ (patch_ddtrace_to_pyroscope "checkout" "s3cr3t" "http://pyroscope:4040" true
             (patch_ddtrace_to_pyroscope "helloworld" "todo" "http://localhost:4040" false
                (Profiling.proc (Sample.fresh Sample.bare))))
  !! "DD_PROFILING_MEMORY_ENABLED"%string
  = Some "False"%string.
Proof.
  apply (installer_applied_again "helloworld" "todo" "http://localhost:4040"
           "checkout" "s3cr3t" "http://pyroscope:4040" false true
           (Profiling.proc (Sample.fresh Sample.bare))).
  reflexivity.
Defined.

Lemma profiling_service_installs_configured_exporter_witness :
  exists config exporter,
    Config.__init__ Sample.staging = inr config /\
    _build_default_exporters
      (Profiling.proc (Profiling.start (Profiling.__init__ config)
                         (Sample.fresh Sample.staging))) tt
    = [Pyroscope exporter] /\
    token exporter = "s3cr3t"%string /\
    service_name exporter = "checkout"%string /\
    endpoint exporter = "http://pyroscope:4040"%string.
Proof.
  assert (exists config, Config.__init__ Sample.staging = inr config) as (config & Hconfig).
  { eexists. vm_compute. reflexivity. }
  destruct (profiling_service_installs_configured_exporter Sample.staging config
              (Sample.fresh Sample.staging) tt Hconfig ltac:(reflexivity))
    as [[Hoff _] | (_ & _ & (exporter & Hfactory & Htoken & Hname & Hendpoint) & _)].
  - vm_compute in Hoff. discriminate.
  - exists config, exporter. split; [exact Hconfig|]. split; [exact Hfactory|].
    split; [rewrite Htoken | split; [rewrite Hname | rewrite Hendpoint]];
      vm_compute; reflexivity.
Defined.

Lemma token_warning_only_for_empty_token_witness :
  exists config,
    Config.__init__ Sample.empty_token = inr config /\
    level (snd (__init__ (Profiling.service_name (Profiling.__init__ config))
                  (Profiling.token (Profiling.__init__ config))
                  (Profiling.endpoint (Profiling.__init__ config))
                  DEFAULT_MAX_RETRY_DELAY DEFAULT_ENABLE_CODE_PROVENANCE))
    = WARNING.
Proof.
  assert (exists config, Config.__init__ Sample.empty_token = inr config)
    as (config & Hconfig).
  { eexists. vm_compute. reflexivity. }
  exists config. split; [exact Hconfig|].
  apply (token_warning_only_for_empty_token Sample.empty_token config Hconfig).
  vm_compute. reflexivity.
Defined.

Lemma failed_start_exits_at_once_witness :
  Main.main [Sample.otlp_up; Sample.profiling_up; Sample.http_down; Sample.querier_up]
    true []
  = (Main.Exit 1, ["otlp.start"; "profiling.start"; "http.start"]%string,
     [ {| Main.level := Main.INFO; Main.message := "[otlp] service started" |};
       {| Main.level := Main.INFO; Main.message := "[profiling] service started" |};
       {| Main.level := Main.ERROR;
          Main.message := "[http] failed to start: port in use" |} ]).
Proof.
  apply (failed_start_exits_at_once [Sample.otlp_up; Sample.profiling_up]
           [Sample.querier_up] Sample.http_down true []
           ["otlp.start"; "profiling.start"]%string
           ["otlp.start"; "profiling.start"; "http.start"]%string
           [ {| Main.level := Main.INFO; Main.message := "[otlp] service started" |};
             {| Main.level := Main.INFO; Main.message := "[profiling] service started" |} ]
           "port in use"); reflexivity.
Defined.


(** ** Runs that end well *)

Section DriverPrefix.
Context {Req Env A : Type}.
Variable r : Tenacity.Retrying.
Variable fn : Env -> Req * result A.

(** Answers that ask for a retry while the budget lasts are each used for
    one attempt, and the run goes on with the rest of the script. *)
Lemma call_through_retries (before rest : list (Env * Q)) :
  Forall (fun answer =>
            Tenacity.is_explicit_retry (Tenacity.set_outcome (snd (fn (fst answer))))
            || Tenacity.retry r (Tenacity.set_outcome (snd (fn (fst answer)))) = true /\
            Tenacity.stop r (snd answer) = false) before ->
  length (Tenacity.attempts (Tenacity.call r fn (before ++ rest)))
  = (length before + length (Tenacity.attempts (Tenacity.call r fn rest)))%nat /\
  Tenacity.outcome (Tenacity.call r fn (before ++ rest))
  = Tenacity.outcome (Tenacity.call r fn rest).
Proof.
  induction before as [|[env elapsed] before IH]; intros Hall; [split; reflexivity|].
  apply Forall_cons in Hall as [[Hretry Hstop] Hall]. cbn [fst snd] in Hretry, Hstop.
  destruct (IH Hall) as [Hlen Hout].
  cbn [app Tenacity.call]. rewrite Hretry, Hstop. cbn [negb Tenacity.attempts Tenacity.outcome].
  split; [simpl; rewrite Hlen; reflexivity | exact Hout].
Qed.

End DriverPrefix.

Section GoodRuns.
Context {Events Profile Libs : Type}.
Variable lib : collaborators Events Profile Libs.
Variables (service_name0 token0 endpoint0 : string).
Variables (max_retry_delay0 : Z) (enable_code_provenance0 : bool).

Abbreviation self :=
  (fst (__init__ service_name0 token0 endpoint0 max_retry_delay0 enable_code_provenance0)).

(** X9: if the transport first gives only transport failures and statuses
    of 500 or more, each recorded before the budget is used up, and then
    a 2xx response, the export call returns the parent's pair after
    exactly one attempt per answer up to that response; what the transport
    would answer afterwards plays no part. *)
Theorem retries_then_2xx_returns events s e w pair before status elapsed after :
  pprof_export lib events s e = Return pair ->
  transport w = before ++ (Responds status, elapsed) :: after ->
  Forall (fun answer =>
            (transport_failure (fst answer) \/ status_from 500 (fst answer)) /\
            (snd answer < inject_Z max_retry_delay0)%Q) before ->
  200 <= status <= 299 ->
  Tenacity.outcome (export lib self events s e w) = Some (Return pair) /\
  length (Tenacity.attempts (export lib self events s e w)) = S (length before).
Proof.
  intros Hparent Htransport Hbefore Hok. destruct pair as [profile libs].
  destruct (export_eq lib service_name0 token0 endpoint0 max_retry_delay0
              enable_code_provenance0 events s e w profile libs Hparent) as [Hatt Heq].
  rewrite Hatt, Heq, Htransport. clear Hatt Heq.
  match goal with
  | |- context [Tenacity.call ?r (_upload_once ?sf ?bd ?hd ?pr) _] =>
      set (B := bd) in *; set (H := hd) in *; set (P := pr) in *
  end.
  clearbody B H P.
  destruct (call_through_retries (_retry_upload self) (_upload_once self B H P) before
              ((Responds status, elapsed) :: after)) as [Hlen Hout].
  { eapply Forall_impl; [exact Hbefore|].
    intros [resp t] [Hretry Hearly]. cbn [fst snd] in *. split.
    - apply (upload_retry_decision service_name0 token0 endpoint0 max_retry_delay0
               enable_code_provenance0 B H P resp). exact Hretry.
    - cbn [Tenacity.stop _retry_upload __init__ fst]. unfold Tenacity.stop_after_delay.
      destruct (Qle_bool (inject_Z max_retry_delay0) t) eqn:Hle; [|reflexivity].
      apply Qle_bool_iff in Hle. exfalso. exact (Qlt_not_le _ _ Hearly Hle). }
  rewrite Hlen, Hout. cbn [Tenacity.call].
  rewrite (upload_once_accepted self B H P status Hok).
  cbn. split; [reflexivity | lia].
Qed.

End GoodRuns.

Lemma retries_then_2xx_returns_witness :
  Tenacity.outcome (Scenario.run Scenario.exporter Scenario.unavailable_twice)
  = Some (Return (b "abc", [])) /\
  length (Tenacity.attempts (Scenario.run Scenario.exporter Scenario.unavailable_twice))
  = 3%nat.
Proof.
  apply (retries_then_2xx_returns Scenario.host "helloworld" "tok123" Scenario.ingest 3
           false tt 1000 2000 (Scenario.surroundings_with Scenario.unavailable_twice)
           (b "abc", []) [ (Responds 503, 1 # 10); (Responds 503, 1 # 1) ] 200 (2 # 1) []).
  - reflexivity.
  - reflexivity.
  - repeat constructor; cbn; lia.
  - lia.
Defined.
